(** * user-service: the authorization core, embedded and verified

    A shallow embedding of the permission-relevant code of the user
    service:

    - [src/validators/UserValidator.ts]: the allow-lists,
      [checkModifyPermission], [validateUpdate] and [validateCreate];
    - [src/controllers/AuthController.ts]: [authenticate],
      [vanillaAuthenticate] and the field-disclosure loop of
      [requestPermissions];
    - [src/utils/Authorize.ts]: the middlewares [authorize] and
      [loadToken];
    - [src/dao/PaymentDao.ts]: [save].

    Part I holds the definitions, Part II the lemmas and theorems on
    the authorization core, Part III further properties of the same
    code, of [validateCreate] and of [save]. *)

From Stdlib Require Import ZArith List String Ascii Bool Lia DecimalString.
Import ListNotations.

Open Scope string_scope.
Open Scope Z_scope.

(* ================================================================== *)
(** * Part I: definitions *)
(* ================================================================== *)

(** ** The fragment of JavaScript the code relies on *)

Module JS.

(** Runtime values.  The numbers met by this code are integers (ids,
    HTTP codes, permission masks), kept as [Z].  [VRef] stands for any
    object, array, function or [Date]: [===] compares those by
    reference. *)
Inductive value : Type :=
| VUndefined
| VNull
| VBool (b : bool)
| VNum (n : Z)
| VStr (s : string)
| VRef (loc : nat).

(** [a === b]. *)
Definition strict_eq (a b : value) : bool :=
  match a, b with
  | VUndefined, VUndefined => true
  | VNull, VNull => true
  | VBool x, VBool y => Bool.eqb x y
  | VNum x, VNum y => Z.eqb x y
  | VStr x, VStr y => String.eqb x y
  | VRef x, VRef y => Nat.eqb x y
  | _, _ => false
  end.

(** ToBoolean: what [if (v)], [!v] and [||] look at. *)
Definition truthy (v : value) : bool :=
  match v with
  | VUndefined | VNull => false
  | VBool b => b
  | VNum n => negb (Z.eqb n 0)
  | VStr s => negb (String.eqb s "")
  | VRef _ => true
  end.

(** [v !== undefined]. *)
Definition defined (v : value) : bool := negb (strict_eq v VUndefined).

(** What the code throws and catches. [ServiceError] is the service's
    own error class, built as [new ServiceError(code, message)]. *)
Inductive exn : Type :=
| ServiceError (httpErrorCode : Z) (message : string)
| TypeError (message : string)
| RangeError (message : string)
| Error (message : string).

(** [e.message] *)
Definition message (e : exn) : string :=
  match e with
  | ServiceError _ m | TypeError m | RangeError m | Error m => m
  end.

(** A plain object: its own enumerable properties in [Object.keys]
    order. *)
Definition obj : Type := list (string * value).

(** [Object.keys(o)] *)
Definition keys (o : obj) : list string := map fst o.

(** [o[k]]: [undefined] when [o] has no property [k]. *)
Fixpoint get (o : obj) (k : string) : value :=
  match o with
  | [] => VUndefined
  | (k', v) :: rest => if String.eqb k' k then v else get rest k
  end.

(** [delete o[k]] *)
Definition delete (k : string) (o : obj) : obj :=
  filter (fun p => negb (String.eqb (fst p) k)) o.

(** [o[k] = v]: an existing property keeps its place, a new one goes
    last. *)
Fixpoint set (k : string) (v : value) (o : obj) : obj :=
  match o with
  | [] => [(k, v)]
  | (k', v') :: rest =>
      if String.eqb k' k then (k, v) :: rest else (k', v') :: set k v rest
  end.

(** [!x] for [x] the result of [Array.prototype.find] over strings:
    [undefined] and the empty string are the falsy ones. *)
Definition not_found (x : option string) : bool :=
  match x with
  | None => true
  | Some s => String.eqb s ""
  end.

(** [s.startsWith(p)] *)
Definition startsWith (p s : string) : bool := String.prefix p s.

(** [s.slice(n)] for [0 <= n] *)
Definition slice (n : nat) (s : string) : string :=
  String.substring n (String.length s - n) s.

(** [s.split(sep)] for a non-empty separator: the pieces between the
    occurrences of [sep], found left to right.  [skip] counts the
    characters of a matched separator still to be passed over and
    [cur] holds the piece being read, last character first. *)
Fixpoint split_from (sep s : string) (skip : nat) (cur : list ascii)
  : list string :=
  match s with
  | EmptyString => [string_of_list_ascii (rev cur)]
  | String c rest =>
      match skip with
      | S n => split_from sep rest n cur
      | O =>
          if String.prefix sep s
          then string_of_list_ascii (rev cur)
                 :: split_from sep rest (String.length sep - 1) []
          else split_from sep rest O (c :: cur)
      end
  end.

Definition split (sep s : string) : list string := split_from sep s O [].

(** ToInt32: the operands of the bitwise operators are taken modulo
    2^32 into the signed range. *)
Definition ToInt32 (z : Z) : Z := (z + 2 ^ 31) mod 2 ^ 32 - 2 ^ 31.

(** [a & b] *)
Definition band (a b : Z) : Z := Z.land (ToInt32 a) (ToInt32 b).

(** [Math.pow(2, i)] for an index [i].  Beyond the range of doubles
    JavaScript gives [Infinity], which [ToInt32] sends to 0 as it does
    every multiple of 2^32, and which is equal to no int32: the exact
    power behaves the same in [band] and [==]. *)
Definition pow2 (i : nat) : Z := 2 ^ Z.of_nat i.

End JS.

Import JS.

(** ** Exceptions over a mutable payload

    [validateUpdate] receives the caller's payload object and mutates
    it; the monad threads that one object and stops at the first
    throw, keeping the object as it is at that point. *)

Module Eff.

Definition M (A : Type) : Type := obj -> (exn + A) * obj.

Definition ret {A} (a : A) : M A := fun s => (inr a, s).

Definition throw {A} (e : exn) : M A := fun s => (inl e, s).

Definition bind {A B} (m : M A) (f : A -> M B) : M B :=
  fun s =>
    match m s with
    | (inl e, s') => (inl e, s')
    | (inr a, s') => f a s'
    end.

(** The result of a call that does not touch the payload. *)
Definition lift {A} (r : exn + A) : M A := fun s => (r, s).

Definition read : M obj := fun s => (inr s, s).

Definition modify (f : obj -> obj) : M unit := fun s => (inr tt, f s).

(** [xs.forEach(f)] *)
Fixpoint forEach {A} (xs : list A) (f : A -> M unit) : M unit :=
  match xs with
  | [] => ret tt
  | x :: rest => bind (f x) (fun _ => forEach rest f)
  end.

End Eff.

Import Eff.

Declare Scope eff_scope.
Delimit Scope eff_scope with eff.
Notation "x <- m ;; k" := (bind m (fun x => k))
  (at level 61, m at next level, right associativity) : eff_scope.
Notation "m ;; k" := (bind m (fun _ => k))
  (at level 61, right associativity) : eff_scope.

(** The same sequencing for calls that only return or throw. *)
Definition and_then {A B} (r : exn + A) (f : A -> exn + B) : exn + B :=
  match r with
  | inl e => inl e
  | inr a => f a
  end.

(** ** src/validators/UserValidator.ts *)

Module UserService.

(** The methods of [UserService] the validator awaits. *)
Record t : Type := {
  fetchUser : Z -> exn + obj;
  checkUsernameAvailability : string -> exn + bool;
  checkEmailAvailability : string -> exn + bool
}.

End UserService.

Module UserValidator.

(** Columns allowed to be self-edited *)
Definition allowedSelfEdit : list string :=
  ["screenName"; "email"; "residence"; "phone";
   "isHYYMember"; "isTKTL"; "password1"; "password2"].

(** Columns allowed to be edited by jasenvirkailija *)
Definition allowedJVEdit : list string :=
  allowedSelfEdit ++ ["name"; "username"; "membership"].

(** Columns allowed to be edited by admin *)
Definition allowedAdminEdit : list string :=
  allowedJVEdit ++ ["role"; "createdAt"].

Definition error : string := "Forbidden modify action".

(** [allowedEdits.find((allowedEdit) => allowedEdit === key)] *)
Definition find_allowed (allowedEdits : list string) (key : string)
  : option string :=
  find (fun allowedEdit => String.eqb allowedEdit key) allowedEdits.

(** The [forEach] of [checkModifyPermission] over the remaining keys:
    the first offending key throws. *)
Fixpoint checkKeys (ks : list string) (allowedEdits : list string)
  : exn + unit :=
  match ks with
  | [] => inr tt
  | key :: rest =>
      if not_found (find_allowed allowedEdits key)
         && negb (String.eqb key "id")
      then inl (ServiceError 403 error)
      else checkKeys rest allowedEdits
  end.

Definition checkModifyPermission (user : obj) (allowedEdits : list string)
  : exn + unit :=
  checkKeys (keys user) allowedEdits.

Section Validator.

(** [this.userService] *)
Variable userService : UserService.t.

(** [UserRoleString.Jasenvirkailija] and [UserRoleString.Yllapitaja]:
    the enum is declared in a file that is not part of the sources, so
    its two members the validator reads are taken as they come. *)
Variables Jasenvirkailija Yllapitaja : string.

(** The imported helpers: the [validator] package, [stringToBoolean]
    of the user helpers and [String.prototype.trim]. *)
Variable validator_equals : value -> value -> exn + bool.
Variable validator_isEmail : value -> exn + bool.
Variable validator_isLength : value -> Z -> Z -> exn + bool.
Variable stringToBoolean : value -> value.
Variable trim : string -> string.

(** [v.trim()]: only strings have the method. *)
Definition call_trim (v : value) : exn + string :=
  match v with
  | VStr s => inr (trim s)
  | _ => inl (TypeError "trim is not a function")
  end.

Definition checkUsernameAvailability (newUser : obj) : exn + unit :=
  if truthy (get newUser "username") then
    and_then (call_trim (get newUser "username")) (fun name =>
    and_then (UserService.checkUsernameAvailability userService name)
      (fun usernameAvailable =>
         if negb usernameAvailable
         then inl (ServiceError 400 "Username already taken")
         else inr tt))
  else inr tt.

Definition checkEmailAvailability (newUser : obj) : exn + unit :=
  if truthy (get newUser "email") then
    and_then (call_trim (get newUser "email")) (fun email =>
    and_then (UserService.checkEmailAvailability userService email)
      (fun emailAvailable =>
         if negb emailAvailable
         then inl (ServiceError 400 "Email address already taken")
         else inr tt))
  else inr tt.

Definition checkEmailValidity (email : value) : exn + bool :=
  if negb (truthy email) then inr false
  else
    and_then (validator_isEmail email) (fun isEmail =>
      if negb isEmail then inr false
      else
        and_then (validator_isLength email 255 1) (fun isLength =>
          if negb isLength then inr false else inr true)).

(** Lines 133-139: remove information that hasn't changed.  The keys
    are those the payload has when the loop starts; each step reads
    the payload as it then is. *)
Definition removeUnchanged (oldUser : obj) : M unit :=
  (newUser <- read ;;
   forEach (keys newUser) (fun k =>
     newUser <- read ;;
     if defined (get oldUser k) && strict_eq (get oldUser k) (get newUser k)
     then modify (delete k)
     else ret tt))%eff.

(** Lines 141-160: the permission decision. *)
Definition checkTier (userId : Z) (modifier : obj) : M unit :=
  (if strict_eq (VNum userId) (get modifier "id") then
     (* Self edit *)
     modify (set "id" (VNum userId)) ;;
     newUser <- read ;;
     lift (checkModifyPermission newUser allowedSelfEdit)
   else if negb (strict_eq (VNum userId) (get modifier "id"))
           && strict_eq (get modifier "role") (VStr Jasenvirkailija) then
     (* Jasenvirkailija edit *)
     newUser <- read ;;
     lift (checkModifyPermission newUser allowedJVEdit)
   else if negb (strict_eq (VNum userId) (get modifier "id"))
           && strict_eq (get modifier "role") (VStr Yllapitaja) then
     (* Yllapitaja edit *)
     newUser <- read ;;
     lift (checkModifyPermission newUser allowedAdminEdit)
   else throw (ServiceError 403 error))%eff.

(** Lines 133-160 of [validateUpdate]: what the specification calls
    the field-edit authorizer. *)
Definition authorizeUpdate (userId : Z) (modifier : obj) : M unit :=
  (oldUser <- lift (UserService.fetchUser userService userId) ;;
   removeUnchanged oldUser ;;
   checkTier userId modifier)%eff.

(** Lines 162-182: availability and format checks on what is left of
    the payload. *)
Definition checkFormat : M unit :=
  (newUser <- read ;;
   lift (checkUsernameAvailability newUser) ;;
   lift (checkEmailAvailability newUser) ;;
   valid <- (if truthy (get newUser "email")
             then lift (checkEmailValidity (get newUser "email"))
             else ret true) ;;
   (if negb valid then throw (ServiceError 400 "Malformed email")
    else ret tt) ;;
   (if truthy (get newUser "isTKTL")
    then modify (set "isTKTL" (stringToBoolean (get newUser "isTKTL")))
    else ret tt) ;;
   newUser <- read ;;
   (if truthy (get newUser "isHYYMember")
    then modify
           (set "isHYYMember" (stringToBoolean (get newUser "isHYYMember")))
    else ret tt) ;;
   newUser <- read ;;
   if truthy (get newUser "password1") && truthy (get newUser "password2")
   then
     same <- lift (validator_equals (get newUser "password1")
                                    (get newUser "password2")) ;;
     if negb same then throw (ServiceError 400 "Passwords do not match")
     else ret tt
   else ret tt)%eff.

(** [validateUpdate(userId, newUser, modifier)]: the payload [newUser]
    is the state of the computation. *)
Definition validateUpdate (userId : Z) (modifier : obj) : M unit :=
  (authorizeUpdate userId modifier ;; checkFormat)%eff.

(** [UserRoleString.Kayttaja], the role given at creation. *)
Variable Kayttaja : string.

(** [validateCreate(newUser)]: the payload [newUser] is the state of
    the computation here too. *)
Definition validateCreate : M unit :=
  ((* Discard user id *)
   modify (delete "id") ;;
   newUser <- read ;;
   (if negb (truthy (get newUser "username"))
       || negb (truthy (get newUser "name"))
       || negb (truthy (get newUser "screenName"))
       || negb (truthy (get newUser "email"))
       || negb (truthy (get newUser "residence"))
       || negb (truthy (get newUser "phone"))
       || negb (truthy (get newUser "password1"))
       || negb (truthy (get newUser "password2"))
    then throw (ServiceError 400 "Missing required information")
    else ret tt) ;;
   (* Test username *)
   lift (checkUsernameAvailability newUser) ;;
   (* Test email *)
   valid <- lift (checkEmailValidity (get newUser "email")) ;;
   (if negb valid then throw (ServiceError 400 "Malformed email")
    else ret tt) ;;
   (* Test email for taken *)
   lift (checkEmailAvailability newUser) ;;
   modify (set "membership" (VStr "ei-jasen")) ;;
   modify (set "role" (VStr Kayttaja)) ;;
   modify (set "deleted" (VBool false)) ;;
   newUser <- read ;;
   modify (set "isTKTL" (stringToBoolean (get newUser "isTKTL"))) ;;
   newUser <- read ;;
   same <- lift (validator_equals (get newUser "password1")
                                  (get newUser "password2")) ;;
   if negb same then throw (ServiceError 400 "Passwords do not match")
   else ret tt)%eff.

End Validator.

End UserValidator.

(** ** Responses *)

Module ServiceResponse.

(** [new ServiceResponse(payload, message)]; a [null] payload is
    [None]. *)
Record t : Type := Build {
  payload : option obj;
  message : string
}.

End ServiceResponse.

(** What a handler does with [res]. *)
Module Res.

(** The cookie set by [res.cookie(name, value, options)]. *)
Record cookie : Type := {
  cookie_name : string;
  cookie_value : string;
  maxAge : Z;
  domain : string;
  secure : bool
}.

(** One entry of the list handed to the view. *)
Record field : Type := {
  name : string;
  value : JS.value
}.

(** The locals of [res.render('gdpr', ...)]. *)
Record gdpr : Type := {
  userId : JS.value;
  personalInformation : list field;
  serviceName : JS.value;
  redirectTo : JS.value
}.

Inductive t : Type :=
| Json (status : JS.value) (body : ServiceResponse.t)
    (* res.status(status).json(body) *)
| Redirect (c : cookie) (headers : list (string * string))
    (location : JS.value)
    (* res.cookie(..); res.set(..); res.redirect(location) *)
| Render (view : string) (locals : gdpr).
    (* res.render(view, locals) *)

End Res.

(** ** src/controllers/AuthController.ts *)

Module Service.

(** The fields of the [Service] model the controller reads. *)
Record t : Type := {
  serviceName : value;
  dataPermissions : Z
}.

End Service.

Module AuthenticationService.

Record t : Type := {
  createToken : value -> value -> exn + string;
  getService : value -> exn + Service.t
}.

End AuthenticationService.

Module AuthController.

(** The calls a handler makes to the token codec, in order. *)
Inductive call : Type :=
| CreateToken (userId permissionLevel : value).

(** A handler ends with a response or with an exception nobody
    caught; the calls it made come with it. *)
Definition handled : Type := (exn + Res.t) * list call.

(** [e.httpErrorCode]: only a [ServiceError] carries one. *)
Definition httpErrorCode (e : exn) : value :=
  match e with
  | ServiceError c _ => VNum c
  | _ => VUndefined
  end.

(** What Node makes of the status when the answer is written: the
    code is taken as an int32 and the status line is refused unless
    it lies within 100..999.  [e.httpErrorCode] is a number or
    [undefined], and [undefined] counts as 0. *)
Definition sendable (status : value) : bool :=
  match status with
  | VNum c => Z.leb 100 (ToInt32 c) && Z.leb (ToInt32 c) 999
  | _ => false
  end.

(** [res.status(e.httpErrorCode).json(new ServiceResponse(null,
    e.message))] inside a [catch]: with a status that cannot be sent
    [json] throws a RangeError out of the handler, and nothing is
    answered. *)
Definition answerError (e : exn) : exn + Res.t :=
  if sendable (httpErrorCode e)
  then inr (Res.Json (httpErrorCode e)
              (ServiceResponse.Build None (message e)))
  else inl (RangeError "Invalid status code").

(** [a || b] on values *)
Definition or_else (a b : value) : value := if truthy a then a else b.

(** Lines 93-100: the [forEach] over [Object.keys(user)] with its
    index, pushing onto [keys]. *)
Fixpoint pushVisible (user : obj) (ks : list string) (idx : nat)
  (dataPermissions : Z) (keys : list Res.field) : list Res.field :=
  match ks with
  | [] => keys
  | key :: rest =>
      pushVisible user rest (S idx) dataPermissions
        (if Z.eqb (band (pow2 idx) dataPermissions) (pow2 idx)
         then keys ++ [{| Res.name := key; Res.value := get user key |}]
         else keys)
  end.

(** The loop started on the empty list: the permission mask
    evaluator of the specification. *)
Definition selectVisibleFields (user : obj) (mask : Z) : list Res.field :=
  pushVisible user (keys user) O mask [].

Section Controller.

(** [this.authService] and [this.userService] *)
Variable authService : AuthenticationService.t.
Variable getUserWithUsernameAndPassword : value -> value -> exn + obj.

(** [new URL(v).hostname] *)
Variable hostname : value -> exn + string.

(** [this.authService.createToken(userId, permission)], logged. *)
Definition createToken (userId permission : value)
  : (exn + string) * list call :=
  (AuthenticationService.createToken authService userId permission,
   [CreateToken userId permission]).

Definition invalidParams : Res.t :=
  Res.Json (VNum 400) (ServiceResponse.Build None "Invalid POST params").

Definition authenticate (body : obj) : handled :=
  if negb (truthy (get body "serviceName"))
     || negb (truthy (get body "redirectTo"))
     || negb (truthy (get body "permission"))
     || negb (truthy (get body "userId"))
  then (inr invalidParams, [])
  else
    match createToken (get body "userId") (VNum 1) with
    | (inl e, calls) =>
        (inr (Res.Json (VNum 500) (ServiceResponse.Build None (message e))),
         calls)
    | (inr token, calls) =>
        (inr (Res.Json (VNum 200)
                (ServiceResponse.Build
                   (Some [("token", VStr token);
                          ("redirectTo", get body "redirectTo")])
                   "Success")),
         calls)
    end.

Definition vanillaAuthenticate (body : obj) : handled :=
  if negb (truthy (get body "permissionVal"))
     || negb (truthy (get body "redirectTo"))
     || negb (truthy (get body "permission"))
     || negb (truthy (get body "userId"))
  then (inr invalidParams, [])
  else
    match createToken (get body "userId") (get body "permissionVal") with
    | (inl e, calls) =>
        (inr (Res.Json (VNum 500) (ServiceResponse.Build None (message e))),
         calls)
    | (inr token, calls) =>
        match hostname (get body "redirectTo") with
        | inl e => (inl e, calls)
        | inr host =>
            (inr (Res.Redirect
                    {| Res.cookie_name := "token";
                       Res.cookie_value := token;
                       Res.maxAge := 1000 * 60 * 60 * 24 * 7;
                       Res.domain := host;
                       Res.secure := true |}
                    [("Access-Control-Allow-Origin", "*");
                     ("Access-Control-Allow-Credentials", "true")]
                    (get body "redirectTo")),
             calls)
        end
    end.

Definition requestPermissions (body : obj) : handled :=
  if negb (truthy (get body "serviceName"))
     || negb (truthy (get body "redirectTo"))
     || negb (truthy (get body "username"))
     || negb (truthy (get body "password"))
  then (inr invalidParams, [])
  else
    match getUserWithUsernameAndPassword
            (get body "username") (get body "password") with
    | inl e => (answerError e, [])
    | inr user =>
        match AuthenticationService.getService authService
                (get body "serviceName") with
        | inl e => (answerError e, [])
        | inr service =>
            (inr (Res.Render "gdpr"
                    {| Res.userId := get user "id";
                       Res.personalInformation :=
                         selectVisibleFields user
                           (Service.dataPermissions service);
                       Res.serviceName := Service.serviceName service;
                       Res.redirectTo :=
                         or_else (get body "redirectTo") (VStr EmptyString)
                    |}), [])
        end
    end.

End Controller.

End AuthController.

(** ** src/utils/Authorize.ts *)

Module Authorize.

(** An incoming request: its headers, names in lower case. *)
Record IASRequest : Type := {
  headers : list (string * string)
}.

(** [req.headers[name]] and [req.header(name)] *)
Definition header (req : IASRequest) (name : string) : option string :=
  match find (fun h => String.eqb (fst h) name) (headers req) with
  | Some (_, v) => Some v
  | None => None
  end.

(** [token && token.toString().startsWith('Bearer ')] *)
Definition isBearer (token : option string) : bool :=
  match token with
  | None => false
  | Some t => negb (String.eqb t "") && startsWith "Bearer " t
  end.

(** [token.slice(7).toString()] *)
Definition bearerValue (token : option string) : string :=
  match token with
  | None => EmptyString
  | Some t => slice 7 t
  end.

Section Middleware.

(** The decoded token class and [stringToServiceToken], both of the
    token module, which is not part of the sources. *)
Variable ServiceToken : Type.
Variable stringToServiceToken : string -> exn + ServiceToken.

(** How a middleware leaves: it answered, it called [next()] with
    [req.authorization] as given, or it threw. *)
Inductive outcome : Type :=
| Responded (r : Res.t)
| Next (authorization : option ServiceToken)
| Uncaught (e : exn).

(** The [try]/[catch] around the decoder, shared by both middlewares. *)
Definition tryDecode (raw : string) : outcome :=
  match stringToServiceToken raw with
  | inr t => Next (Some t)
  | inl e =>
      Responded
        (Res.Json (VNum 500) (ServiceResponse.Build None (message e)))
  end.

Definition authorize (req : IASRequest) : outcome :=
  let token := header req "authorization" in
  if negb (isBearer token)
  then Responded
         (Res.Json (VNum 401) (ServiceResponse.Build None "Unauthorized"))
  else tryDecode (bearerValue token).

Definition loadToken (req : IASRequest) : outcome :=
  let token := header req "authorization" in
  if isBearer token then tryDecode (bearerValue token)
  else
    match header req "cookie" with
    | None =>
        Uncaught
          (TypeError "Cannot read properties of undefined (reading 'split')")
    | Some cookie =>
        let splittedToken := split "token=" cookie in
        if Nat.ltb 1 (List.length splittedToken)
        then tryDecode (nth 1 splittedToken EmptyString)
        else Next None
    end.

End Middleware.

Arguments Responded {ServiceToken} r.
Arguments Next {ServiceToken} authorization.
Arguments Uncaught {ServiceToken} e.
Arguments authorize {ServiceToken} stringToServiceToken req.
Arguments loadToken {ServiceToken} stringToServiceToken req.
Arguments tryDecode {ServiceToken} stringToServiceToken raw.

End Authorize.

(** ** src/dao/PaymentDao.ts *)

Module PaymentDao.

Section Dao.

(** [knexInstance("payments").insert(entity)]: the ids of the rows
    written, or the driver's error. *)
Variable insert : obj -> exn + list Z.

(** [save(entity)]: the entity is the caller's object; what comes
    back is the promise's outcome and the entity as [save] left
    it. *)
Definition save (entity : obj) : (exn + list Z) * obj :=
  (* Delete id because it's auto-assigned *)
  let entity :=
    if truthy (get entity "id") then delete "id" entity else entity in
  (insert entity, entity).

End Dao.

End PaymentDao.

(** ** Words about strings *)

Module Text.

(** [s] without its first [n] characters. *)
Fixpoint drop (n : nat) (s : string) : string :=
  match n, s with
  | O, _ => s
  | S _, EmptyString => EmptyString
  | S m, String _ rest => drop m rest
  end.

(** [sep] occurs in [s]. *)
Definition occurs (sep s : string) : Prop :=
  exists before after, s = before ++ sep ++ after.

End Text.

(** ** The vocabulary of the field-edit authorizer

    The notions the specification uses to talk about an update; they
    are compared with the code in Part II. *)

Module FieldEdit.

(** The field's current stored value: what the stored user holds
    under [k], if it holds anything. *)
Definition storedValue (oldUser : obj) (k : string) : option value :=
  match get oldUser k with
  | VUndefined => None
  | v => Some v
  end.

(** The proposed value of [k] equals the stored one. *)
Definition sameAsStored (oldUser newUser : obj) (k : string) : bool :=
  match storedValue oldUser k with
  | Some v => strict_eq v (get newUser k)
  | None => false
  end.

(** The payload without its no-op entries. *)
Definition withoutNoOps (oldUser newUser : obj) : obj :=
  filter (fun p => negb (sameAsStored oldUser newUser (fst p))) newUser.

(** The proposed fields: the names left once the no-op entries are
    dropped. *)
Definition proposedFields (oldUser newUser : obj) : list string :=
  keys (withoutNoOps oldUser newUser).

(** The three tiers and the allowed-field set of each. *)
Inductive tier (Jasenvirkailija Yllapitaja : string) (userId : Z)
  (modifier : obj) : list string -> Prop :=
| SelfEdit :
    get modifier "id" = VNum userId ->
    tier Jasenvirkailija Yllapitaja userId modifier
      ["screenName"; "email"; "residence"; "phone";
       "isHYYMember"; "isTKTL"; "password1"; "password2"]
| StaffEdit :
    get modifier "id" <> VNum userId ->
    get modifier "role" = VStr Jasenvirkailija ->
    tier Jasenvirkailija Yllapitaja userId modifier
      ["screenName"; "email"; "residence"; "phone";
       "isHYYMember"; "isTKTL"; "password1"; "password2";
       "name"; "username"; "membership"]
| AdminEdit :
    get modifier "id" <> VNum userId ->
    get modifier "role" = VStr Yllapitaja ->
    tier Jasenvirkailija Yllapitaja userId modifier
      ["screenName"; "email"; "residence"; "phone";
       "isHYYMember"; "isTKTL"; "password1"; "password2";
       "name"; "username"; "membership"; "role"; "createdAt"].

(** [k] may be proposed under the allowed set: it is in the set or it
    is the identifier. *)
Definition permitted (allowed : list string) (k : string) : bool :=
  existsb (String.eqb k) allowed || String.eqb k "id".

Definition Forbidden : exn := ServiceError 403 "Forbidden modify action".

(** The authorizer's answer. *)
Inductive decision : Type :=
| Accept
| Reject (reason : exn).

(** The answer a run of the code amounts to: returning is accepting,
    throwing is rejecting. *)
Definition decisionOf {A} (r : exn + A) : decision :=
  match r with
  | inr _ => Accept
  | inl e => Reject e
  end.

(** The proposed fields outside the allowed set, the identifier
    apart. *)
Definition difference (fields allowed : list string) : list string :=
  filter (fun k => negb (permitted allowed k)) fields.

(** The algorithm as the specification words it: a non-empty
    difference rejects the whole update. *)
Definition decide (fields allowed : list string) : decision :=
  match difference fields allowed with
  | [] => Accept
  | _ :: _ => Reject Forbidden
  end.

End FieldEdit.

(** ** The user schema *)

Module User.

(** Modelled from the spec: the [User] model ([models/User]) is not
    among the sources; section 3 of the specification lists its
    fields, in this order. *)
Definition fields : list string :=
  ["id"; "username"; "name"; "screenName"; "email"; "residence";
   "phone"; "isHYYMember"; "isTKTL"; "membership"; "role"; "createdAt";
   "deleted"; "hashedPassword"; "salt"].

End User.

(** ** The vocabulary of the permission mask evaluator *)

Module Disclosure.

(** Bit [i] of [mask] is set: [(mask >> i) & 1 == 1]. *)
Definition bitSet (mask : Z) (i : nat) : bool :=
  Z.eqb (Z.land (Z.shiftr mask (Z.of_nat i)) 1) 1.

(** The keys [ks], the first of which has ordinal index [i], kept
    when [governs] holds of their index and paired with the user's
    value, in the order of [ks]. *)
Fixpoint fieldsFrom (governs : nat -> bool) (user : obj)
  (ks : list string) (i : nat) : list Res.field :=
  match ks with
  | [] => []
  | k :: rest =>
      if governs i
      then {| Res.name := k; Res.value := get user k |}
             :: fieldsFrom governs user rest (S i)
      else fieldsFrom governs user rest (S i)
  end.

(** The evaluator as the specification words it: the fields whose
    ordinal bit is set, in canonical key order. *)
Definition fieldsWithBitSet (user : obj) (mask : Z) : list Res.field :=
  fieldsFrom (bitSet mask) user (keys user) O.

(** The same with the indices an int32 operand can address: bit 31 is
    the sign and there is no bit beyond. *)
Definition fieldsWithLowBitSet (user : obj) (mask : Z) : list Res.field :=
  fieldsFrom (fun i => Nat.ltb i 31 && bitSet mask i) user (keys user) O.

End Disclosure.

(** ** Sample data

    A stored user, three actors, payloads and stand-ins for the
    collaborators, on which the theorems of Part II are run. *)

Module Sample.

Definition stored : obj :=
  [("id", VNum 1); ("username", VStr "test_user");
   ("name", VStr "Test User"); ("screenName", VStr "tuser");
   ("email", VStr "test@user.com"); ("residence", VStr "Test");
   ("phone", VStr "1234567890"); ("isHYYMember", VBool true);
   ("isTKTL", VBool true); ("membership", VStr "jasen");
   ("role", VStr "kayttaja"); ("createdAt", VRef 0);
   ("deleted", VBool false)].

Definition owner : obj := stored.

Definition staff : obj :=
  [("id", VNum 2); ("username", VStr "jv_user");
   ("role", VStr "jasenvirkailija")].

Definition admin : obj :=
  [("id", VNum 3); ("username", VStr "admin_user");
   ("role", VStr "yllapitaja")].

Definition stranger : obj :=
  [("id", VNum 4); ("username", VStr "other_user");
   ("role", VStr "kayttaja")].

Definition userService : UserService.t :=
  {| UserService.fetchUser := fun id =>
       if Z.eqb id 1 then inr stored
       else inl (ServiceError 404 "User not found");
     UserService.checkUsernameAvailability := fun _ => inr true;
     UserService.checkEmailAvailability := fun _ => inr true |}.

Definition JV : string := "jasenvirkailija".
Definition YP : string := "yllapitaja".

Definition equals (a b : value) : exn + bool := inr (strict_eq a b).
Definition isEmail (v : value) : exn + bool := inr true.
Definition isLength (v : value) (max min : Z) : exn + bool := inr true.
Definition toBoolean (v : value) : value := VBool (truthy v).
Definition noTrim (s : string) : string := s.

(** The validator wired to the stand-ins. *)
Definition validateUpdate : Z -> obj -> M unit :=
  UserValidator.validateUpdate userService JV YP
    equals isEmail isLength toBoolean noTrim.

Definition authorizeUpdate : Z -> obj -> M unit :=
  UserValidator.authorizeUpdate userService JV YP.

(** New e-mail and phone. *)
Definition contact : obj :=
  [("email", VStr "new@user.com"); ("phone", VStr "555")].

(** A new role, sent along with the unchanged name. *)
Definition promote : obj :=
  [("name", VStr "Test User"); ("role", VStr "yllapitaja")].

(** Nothing but stored values. *)
Definition same : obj :=
  [("id", VNum 1); ("name", VStr "Test User");
   ("role", VStr "kayttaja"); ("residence", VStr "Test")].

(** A user of five fields and a user of thirty-two. *)
Definition five : obj :=
  [("field0", VNum 10); ("field1", VNum 11); ("field2", VNum 12);
   ("field3", VNum 13); ("field4", VNum 14)].

Definition wideKey (n : nat) : string :=
  String (ascii_of_nat (97 + n / 8))
    (String (ascii_of_nat (48 + n mod 8)) EmptyString).

Definition wide : obj :=
  map (fun n => (wideKey n, VNum (Z.of_nat n))) (seq 0 32).

(** A token codec to run the handlers on: the token spells out what
    it binds, and only well-formed, unexpired tokens decode. *)
Record ServiceToken : Type := {
  subjectId : Z;
  permissionLevel : Z
}.

Definition show (v : value) : string :=
  match v with
  | VNum n => NilZero.string_of_int (Z.to_int n)
  | VStr s => s
  | _ => "?"
  end.

Definition createToken (userId permission : value) : exn + string :=
  inr (show userId ++ "." ++ show permission).

Definition stringToServiceToken (raw : string) : exn + ServiceToken :=
  if String.eqb raw "5.1"
  then inr {| subjectId := 5; permissionLevel := 1 |}
  else if String.eqb raw "5.7"
  then inr {| subjectId := 5; permissionLevel := 7 |}
  else if String.eqb raw "expired" then inl (Error "jwt expired")
  else if String.eqb raw "forged" then inl (Error "invalid signature")
  else inl (Error "jwt malformed").

Definition calendar : Service.t :=
  {| Service.serviceName := VStr "Calendar";
     Service.dataPermissions := 5 |}.

Definition authService : AuthenticationService.t :=
  {| AuthenticationService.createToken := createToken;
     AuthenticationService.getService := fun _ => inr calendar |}.

(** A request for permission level 7 on behalf of user 5. *)
Definition askSeven : obj :=
  [("serviceName", VStr "calendar");
   ("redirectTo", VStr "https://calendar.example");
   ("permission", VStr "7");
   ("permissionVal", VNum 7);
   ("userId", VNum 5)].

(** The same without a permission. *)
Definition askNothing : obj :=
  [("serviceName", VStr "calendar");
   ("redirectTo", VStr "https://calendar.example");
   ("userId", VNum 5)].

Definition bearer (raw : string) : Authorize.IASRequest :=
  {| Authorize.headers := [("authorization", "Bearer " ++ raw)] |}.

Definition withCookie (c : string) : Authorize.IASRequest :=
  {| Authorize.headers := [("cookie", c)] |}.

Definition bare : Authorize.IASRequest :=
  {| Authorize.headers := [("accept", "*/*")] |}.

End Sample.

(** ** More sample data *)

Module Scenario.

(** A registration that asks for a role, a membership and an id of
    its own. *)
Definition signup : obj :=
  [("id", VNum 99); ("username", VStr "newcomer");
   ("name", VStr "New Comer"); ("screenName", VStr "newc");
   ("email", VStr "new@comer.org"); ("residence", VStr "Helsinki");
   ("phone", VStr "0401234567"); ("password1", VStr "hunter22");
   ("password2", VStr "hunter22"); ("role", VStr "yllapitaja");
   ("membership", VStr "jasen"); ("isTKTL", VStr "true")].

(** The same without a phone number. *)
Definition signupNoPhone : obj :=
  [("id", VNum 99); ("username", VStr "newcomer");
   ("name", VStr "New Comer"); ("screenName", VStr "newc");
   ("email", VStr "new@comer.org"); ("residence", VStr "Helsinki");
   ("password1", VStr "hunter22"); ("password2", VStr "hunter22")].

Definition KA : string := "kayttaja".

Definition validateCreate : M unit :=
  UserValidator.validateCreate Sample.userService
    Sample.equals Sample.isEmail Sample.isLength Sample.toBoolean
    Sample.noTrim KA.

(** A new password, typed once. *)
Definition onePassword : obj := [("password1", VStr "hunter22")].

(** A new password typed twice, differently. *)
Definition twoPasswords : obj :=
  [("password1", VStr "hunter22"); ("password2", VStr "hunter23")].

(** URL parsing that knows one address. *)
Definition hostname (v : value) : exn + string :=
  if strict_eq v (VStr "https://calendar.example")
  then inr "calendar.example"
  else inl (TypeError "Invalid URL").

(** The request for level 7 with a relative redirect target. *)
Definition askSevenRelative : obj :=
  [("serviceName", VStr "calendar");
   ("redirectTo", VStr "/back");
   ("permission", VStr "7");
   ("permissionVal", VNum 7);
   ("userId", VNum 5)].

(** A codec without its signing key. *)
Definition keyless : AuthenticationService.t :=
  {| AuthenticationService.createToken := fun _ _ =>
       inl (Error "secretOrPrivateKey must have a value");
     AuthenticationService.getService := fun _ =>
       inl (ServiceError 404 "Service not found") |}.

(** Credentials of the stored user. *)
Definition login : obj :=
  [("serviceName", VStr "calendar");
   ("redirectTo", VStr "https://calendar.example");
   ("username", VStr "test_user");
   ("password", VStr "secret")].

Definition getUser (username password : value) : exn + obj :=
  if strict_eq username (VStr "test_user")
     && strict_eq password (VStr "secret")
  then inr Sample.stored
  else inl (ServiceError 401 "Invalid username or password").

(** A payment that comes with an id, and one with the id 0. *)
Definition payment : obj :=
  [("id", VNum 12); ("payer_id", VNum 1); ("amount", VNum 5)].

Definition paymentZero : obj :=
  [("id", VNum 0); ("payer_id", VNum 1); ("amount", VNum 5)].

Definition insert (row : obj) : exn + list Z := inr [42].

End Scenario.

(* ================================================================== *)
(** * Part II: lemmas and theorems *)
(* ================================================================== *)

(** ** Values and objects *)

Lemma strict_eq_spec (a b : value) : strict_eq a b = true <-> a = b.
Proof.
  destruct a, b; simpl; split; intros H;
    try reflexivity; try discriminate H; try congruence.
  - apply Bool.eqb_prop in H. now subst.
  - injection H as ->. apply Bool.eqb_reflx.
  - apply Z.eqb_eq in H. now subst.
  - injection H as ->. apply Z.eqb_refl.
  - apply String.eqb_eq in H. now subst.
  - injection H as ->. apply String.eqb_refl.
  - apply Nat.eqb_eq in H. now subst.
  - injection H as ->. apply Nat.eqb_refl.
Qed.

Lemma strict_eq_false (a b : value) : strict_eq a b = false <-> a <> b.
Proof.
  rewrite <- strict_eq_spec. destruct (strict_eq a b); split; congruence.
Qed.

Lemma strict_eq_sym (a b : value) : strict_eq a b = strict_eq b a.
Proof.
  destruct (strict_eq b a) eqn:E.
  - apply strict_eq_spec in E. subst. now apply strict_eq_spec.
  - apply strict_eq_false in E. apply strict_eq_false. congruence.
Qed.

Lemma get_delete_other (k k' : string) (o : obj) :
  k <> k' -> get (delete k o) k' = get o k'.
Proof.
  intros Hk. induction o as [|[k0 v] o IH]; simpl; [reflexivity|].
  destruct (String.eqb k0 k) eqn:E0; simpl.
  - apply String.eqb_eq in E0. subst k0.
    destruct (String.eqb k k') eqn:E1; [|exact IH].
    apply String.eqb_eq in E1. contradiction.
  - now rewrite IH.
Qed.

Lemma filter_filter_and {A} (f g : A -> bool) (l : list A) :
  filter f (filter g l) = filter (fun a => g a && f a) l.
Proof.
  induction l as [|a l IH]; simpl; [reflexivity|].
  destruct (g a); simpl; [destruct (f a)|]; now rewrite IH.
Qed.

Lemma In_keys (o : obj) (p : string * value) : In p o -> In (fst p) (keys o).
Proof. apply in_map. Qed.

Lemma get_set_same (k : string) (v : value) (o : obj) :
  get (set k v o) k = v.
Proof.
  induction o as [|[k0 v0] o IH]; simpl.
  - now rewrite String.eqb_refl.
  - destruct (String.eqb k0 k) eqn:E; simpl.
    + now rewrite String.eqb_refl.
    + now rewrite E.
Qed.

Lemma get_set_other (k k' : string) (v : value) (o : obj) :
  k <> k' -> get (set k v o) k' = get o k'.
Proof.
  intros Hk. induction o as [|[k0 v0] o IH]; simpl.
  - apply String.eqb_neq in Hk. now rewrite Hk.
  - destruct (String.eqb k0 k) eqn:E; simpl.
    + apply String.eqb_eq in E. subst k0.
      apply String.eqb_neq in Hk. now rewrite Hk.
    + now rewrite IH.
Qed.

Lemma In_keys_set (k k' : string) (v : value) (o : obj) :
  In k' (keys (set k v o)) <-> k' = k \/ In k' (keys o).
Proof.
  induction o as [|[k0 v0] o IH]; simpl.
  - intuition.
  - destruct (String.eqb k0 k) eqn:E; simpl.
    + apply String.eqb_eq in E. subst k0. intuition.
    + rewrite IH. intuition.
Qed.

(** ** The permission check *)

Import FieldEdit.

Lemma existsb_eqb_In (k : string) (l : list string) :
  existsb (String.eqb k) l = true <-> In k l.
Proof.
  rewrite existsb_exists. split.
  - intros [x [Hin Hx]]. apply String.eqb_eq in Hx. now subst.
  - intros Hin. exists k. split; [assumption | apply String.eqb_refl].
Qed.

Lemma permitted_spec (allowed : list string) (k : string) :
  permitted allowed k = true <-> In k allowed \/ k = "id".
Proof.
  unfold permitted. rewrite orb_true_iff, existsb_eqb_In, String.eqb_eq.
  reflexivity.
Qed.

Lemma difference_nil (fields allowed : list string) :
  difference fields allowed = [] <->
  forall k, In k fields -> In k allowed \/ k = "id".
Proof.
  unfold difference. induction fields as [|f fields IH]; simpl.
  - intuition.
  - destruct (permitted allowed f) eqn:E; simpl.
    + rewrite IH. apply permitted_spec in E. split.
      * intros H k [<-|Hk]; auto.
      * intros H k Hk. apply H. now right.
    + split; [discriminate|]. intros H.
      assert (Hf : permitted allowed f = true)
        by (apply permitted_spec, H; now left).
      congruence.
Qed.

Lemma decide_Accept (fields allowed : list string) :
  decide fields allowed = Accept <->
  forall k, In k fields -> In k allowed \/ k = "id".
Proof.
  rewrite <- difference_nil. unfold decide.
  destruct (difference fields allowed); split; congruence.
Qed.

Lemma decide_Reject (fields allowed : list string) :
  (exists k, In k fields /\ ~ In k allowed /\ k <> "id") ->
  decide fields allowed = Reject Forbidden.
Proof.
  intros [k [Hin [Hna Hid]]]. unfold decide.
  destruct (difference fields allowed) eqn:E; [|reflexivity].
  destruct (proj1 (difference_nil _ _) E k Hin); contradiction.
Qed.

(** On a list without the empty string, [find] answers whether the
    key is listed. *)
Lemma find_allowed_spec (allowed : list string) (key : string) :
  ~ In EmptyString allowed ->
  not_found (UserValidator.find_allowed allowed key)
  = negb (existsb (String.eqb key) allowed).
Proof.
  unfold UserValidator.find_allowed.
  induction allowed as [|a allowed IH]; intros Hne; simpl; [reflexivity|].
  rewrite (String.eqb_sym key a).
  destruct (String.eqb a key) eqn:E; simpl.
  - destruct (String.eqb a EmptyString) eqn:E0; [|reflexivity].
    apply String.eqb_eq in E0. exfalso. apply Hne. now left.
  - apply IH. intros H. apply Hne. now right.
Qed.

Lemma checkKeys_decide (ks allowed : list string) :
  ~ In EmptyString allowed ->
  decisionOf (UserValidator.checkKeys ks allowed) = decide ks allowed
  /\ (UserValidator.checkKeys ks allowed = inr tt
      \/ UserValidator.checkKeys ks allowed = inl Forbidden).
Proof.
  intros Hne. unfold decide, difference.
  induction ks as [|key ks [IH1 IH2]]; simpl; [auto|].
  rewrite (find_allowed_spec allowed key Hne). unfold permitted at 1 3.
  destruct (existsb (String.eqb key) allowed); simpl.
  - auto.
  - destruct (String.eqb key "id"); simpl; auto.
Qed.

Lemma allowedSelfEdit_names :
  ~ In EmptyString UserValidator.allowedSelfEdit.
Proof. simpl. intuition discriminate. Qed.

Lemma allowedJVEdit_names : ~ In EmptyString UserValidator.allowedJVEdit.
Proof. simpl. intuition discriminate. Qed.

Lemma allowedAdminEdit_names :
  ~ In EmptyString UserValidator.allowedAdminEdit.
Proof. simpl. intuition discriminate. Qed.

(** The identifier written by the self-edit branch changes nothing in
    the answer. *)
Lemma decide_set_id (v : value) (p : obj) (allowed : list string) :
  decide (keys (set "id" v p)) allowed = decide (keys p) allowed.
Proof.
  assert (H : forall q, decide (keys q) allowed = Accept \/
                        decide (keys q) allowed = Reject Forbidden).
  { intros q. unfold decide. destruct (difference _ _); auto. }
  destruct (H p) as [Hp|Hp]; rewrite Hp.
  - apply decide_Accept. intros k Hk. apply In_keys_set in Hk.
    destruct Hk as [->|Hk]; [now right|].
    now apply (proj1 (decide_Accept _ _) Hp).
  - destruct (H (set "id" v p)) as [Hs|Hs]; [|assumption].
    exfalso. assert (Hacc : decide (keys p) allowed = Accept).
    { apply decide_Accept. intros k Hk.
      apply (proj1 (decide_Accept _ _) Hs), In_keys_set. now right. }
    congruence.
Qed.

(** ** Removing what has not changed *)

Lemma unchanged_test (oldUser newUser : obj) (k : string) :
  defined (get oldUser k) && strict_eq (get oldUser k) (get newUser k)
  = sameAsStored oldUser newUser k.
Proof.
  unfold sameAsStored, storedValue, defined.
  destruct (get oldUser k); reflexivity.
Qed.

Lemma sameAsStored_delete (oldUser newUser : obj) (k k' : string) :
  k <> k' ->
  sameAsStored oldUser (delete k newUser) k'
  = sameAsStored oldUser newUser k'.
Proof.
  intros Hk. unfold sameAsStored. now rewrite get_delete_other.
Qed.

Lemma forEach_remove (oldUser : obj) (ks : list string) (cur : obj) :
  forEach ks (fun k =>
    bind read (fun newUser =>
      if defined (get oldUser k)
         && strict_eq (get oldUser k) (get newUser k)
      then modify (delete k) else ret tt)) cur
  = (inr tt,
     filter (fun p => negb (existsb (String.eqb (fst p)) ks
                            && sameAsStored oldUser cur (fst p))) cur).
Proof.
  revert cur. induction ks as [|k ks IH]; intros cur.
  - simpl. unfold ret. f_equal. symmetry.
    induction cur as [|p cur IHc]; simpl; [reflexivity | now rewrite IHc].
  - cbn [forEach]. unfold bind at 1. unfold bind at 1. unfold read at 1.
    rewrite unchanged_test.
    destruct (sameAsStored oldUser cur k) eqn:E.
    + unfold modify at 1. rewrite IH. f_equal.
      unfold delete at 2. rewrite filter_filter_and.
      apply filter_ext_in. intros [k0 v0] _. cbn [fst existsb].
      destruct (String.eqb k0 k) eqn:E0; simpl.
      * apply String.eqb_eq in E0. subst k0. now rewrite E.
      * rewrite sameAsStored_delete; [reflexivity|].
        intros ->. now rewrite String.eqb_refl in E0.
    + unfold ret at 1. rewrite IH. f_equal.
      apply filter_ext_in. intros [k0 v0] _. cbn [fst existsb].
      destruct (String.eqb k0 k) eqn:E0; simpl; [|reflexivity].
      apply String.eqb_eq in E0. subst k0. rewrite E.
      now rewrite andb_false_r.
Qed.

Lemma removeUnchanged_run (oldUser newUser : obj) :
  UserValidator.removeUnchanged oldUser newUser
  = (inr tt, withoutNoOps oldUser newUser).
Proof.
  unfold UserValidator.removeUnchanged, bind at 1, read at 1.
  rewrite forEach_remove. unfold withoutNoOps.
  apply (f_equal (pair (inr tt))).
  apply filter_ext_in. intros p Hp.
  assert (H : existsb (String.eqb (fst p)) (keys newUser) = true)
    by now apply existsb_eqb_In, In_keys.
  now rewrite H.
Qed.

Lemma check_decide (p : obj) (allowed : list string) :
  ~ In EmptyString allowed ->
  decisionOf (UserValidator.checkModifyPermission p allowed)
  = decide (keys p) allowed.
Proof. intros H. apply (checkKeys_decide (keys p) allowed H). Qed.

Lemma check_accepts (p : obj) (allowed : list string) :
  ~ In EmptyString allowed ->
  decide (keys p) allowed = Accept ->
  UserValidator.checkModifyPermission p allowed = inr tt.
Proof.
  intros H Hd. unfold UserValidator.checkModifyPermission.
  destruct (checkKeys_decide (keys p) allowed H) as [H1 [H2|H2]];
    [assumption|].
  rewrite H2 in H1. simpl in H1. congruence.
Qed.

Lemma check_rejects (p : obj) (allowed : list string) :
  ~ In EmptyString allowed ->
  decide (keys p) allowed = Reject Forbidden ->
  UserValidator.checkModifyPermission p allowed = inl Forbidden.
Proof.
  intros H Hd. unfold UserValidator.checkModifyPermission.
  destruct (checkKeys_decide (keys p) allowed H) as [H1 [H2|H2]];
    [|assumption].
  rewrite H2 in H1. simpl in H1. congruence.
Qed.

Lemma decide_cases (fields allowed : list string) :
  decide fields allowed = Accept \/ decide fields allowed = Reject Forbidden.
Proof. unfold decide. destruct (difference fields allowed); auto. Qed.

(** A larger allowed set rejects no more. *)
Lemma decide_mono (fields small large : list string) :
  incl small large ->
  decide fields large = Reject Forbidden ->
  decide fields small = Reject Forbidden.
Proof.
  intros Hincl Hl. destruct (decide_cases fields small) as [Hs|Hs];
    [|assumption].
  assert (Ha : decide fields large = Accept).
  { apply decide_Accept. intros k Hk.
    destruct (proj1 (decide_Accept _ _) Hs k Hk); auto. }
  congruence.
Qed.

(** No entry that carries the stored value survives the removal. *)
Lemma withoutNoOps_drops (oldUser newUser : obj) (k : string) (v : value) :
  storedValue oldUser k = Some v ->
  get newUser k = v ->
  ~ In k (keys (withoutNoOps oldUser newUser)).
Proof.
  intros Hs Hv Hin. unfold withoutNoOps, keys in Hin.
  apply in_map_iff in Hin. destruct Hin as [[k0 v0] [Hk Hin]].
  simpl in Hk. subst k0. apply filter_In in Hin. destruct Hin as [_ Hf].
  simpl in Hf. unfold sameAsStored in Hf. rewrite Hs, Hv in Hf.
  now rewrite (proj2 (strict_eq_spec v v) eq_refl) in Hf.
Qed.

(** ** The tiers of [validateUpdate] *)

Section ValidatorFacts.

Context (userService : UserService.t).
Context (Jasenvirkailija Yllapitaja : string).
Context (validator_equals : value -> value -> exn + bool).
Context (validator_isEmail : value -> exn + bool).
Context (validator_isLength : value -> Z -> Z -> exn + bool).
Context (stringToBoolean : value -> value).
Context (trim : string -> string).

Local Abbreviation checkTier :=
  (UserValidator.checkTier Jasenvirkailija Yllapitaja).
Local Abbreviation authorizeUpdate :=
  (UserValidator.authorizeUpdate userService Jasenvirkailija Yllapitaja).
Local Abbreviation validateUpdate :=
  (UserValidator.validateUpdate userService Jasenvirkailija Yllapitaja
     validator_equals validator_isEmail validator_isLength
     stringToBoolean trim).

Lemma checkTier_self (userId : Z) (modifier p : obj) :
  get modifier "id" = VNum userId ->
  checkTier userId modifier p
  = (UserValidator.checkModifyPermission (set "id" (VNum userId) p)
       UserValidator.allowedSelfEdit,
     set "id" (VNum userId) p).
Proof.
  intros Hid. unfold UserValidator.checkTier.
  rewrite (proj2 (strict_eq_spec _ _) (eq_sym Hid)). reflexivity.
Qed.

Lemma checkTier_staff (userId : Z) (modifier p : obj) :
  get modifier "id" <> VNum userId ->
  get modifier "role" = VStr Jasenvirkailija ->
  checkTier userId modifier p
  = (UserValidator.checkModifyPermission p UserValidator.allowedJVEdit, p).
Proof.
  intros Hid Hrole. unfold UserValidator.checkTier.
  rewrite (proj2 (strict_eq_false (VNum userId) (get modifier "id")))
    by congruence.
  rewrite (proj2 (strict_eq_spec _ _) Hrole). reflexivity.
Qed.

Lemma checkTier_admin (userId : Z) (modifier p : obj) :
  get modifier "id" <> VNum userId ->
  get modifier "role" = VStr Yllapitaja ->
  Jasenvirkailija <> Yllapitaja ->
  checkTier userId modifier p
  = (UserValidator.checkModifyPermission p UserValidator.allowedAdminEdit,
     p).
Proof.
  intros Hid Hrole Hne. unfold UserValidator.checkTier.
  rewrite (proj2 (strict_eq_false (VNum userId) (get modifier "id")))
    by congruence.
  rewrite (proj2 (strict_eq_false (get modifier "role")
                    (VStr Jasenvirkailija))) by congruence.
  rewrite (proj2 (strict_eq_spec _ _) Hrole). reflexivity.
Qed.

Lemma checkTier_other (userId : Z) (modifier p : obj) :
  get modifier "id" <> VNum userId ->
  get modifier "role" <> VStr Jasenvirkailija ->
  get modifier "role" <> VStr Yllapitaja ->
  checkTier userId modifier p = (inl Forbidden, p).
Proof.
  intros Hid H1 H2. unfold UserValidator.checkTier.
  rewrite (proj2 (strict_eq_false (VNum userId) (get modifier "id")))
    by congruence.
  rewrite (proj2 (strict_eq_false _ _) H1).
  rewrite (proj2 (strict_eq_false _ _) H2). reflexivity.
Qed.

Lemma authorizeUpdate_run (userId : Z) (modifier newUser oldUser : obj) :
  UserService.fetchUser userService userId = inr oldUser ->
  authorizeUpdate userId modifier newUser
  = checkTier userId modifier (withoutNoOps oldUser newUser).
Proof.
  intros Hfetch. unfold UserValidator.authorizeUpdate.
  unfold bind at 1, lift at 1. rewrite Hfetch.
  unfold bind at 1. now rewrite removeUnchanged_run.
Qed.

(** A rejection by the permission check is the result of the whole
    validation, payload included. *)
Lemma validateUpdate_rejected (userId : Z) (modifier newUser : obj)
  (e : exn) :
  fst (authorizeUpdate userId modifier newUser) = inl e ->
  validateUpdate userId modifier newUser
  = (inl e, snd (authorizeUpdate userId modifier newUser)).
Proof.
  intros H. unfold UserValidator.validateUpdate, bind at 1.
  destruct (authorizeUpdate userId modifier newUser) as [[e'|[]] p];
    simpl in *; congruence.
Qed.

(** Past the permission check, the rest of the validation runs on the
    payload the check left. *)
Lemma validateUpdate_accepted (userId : Z) (modifier newUser : obj) :
  fst (authorizeUpdate userId modifier newUser) = inr tt ->
  validateUpdate userId modifier newUser
  = UserValidator.checkFormat userService validator_equals
      validator_isEmail validator_isLength stringToBoolean trim
      (snd (authorizeUpdate userId modifier newUser)).
Proof.
  intros H. unfold UserValidator.validateUpdate, bind at 1.
  destruct (authorizeUpdate userId modifier newUser) as [[e'|[]] p];
    simpl in *; congruence.
Qed.

(** The answer of each tier, as the specification computes it. *)
Lemma self_edit_decide (userId : Z) (modifier newUser oldUser : obj) :
  UserService.fetchUser userService userId = inr oldUser ->
  get modifier "id" = VNum userId ->
  decisionOf (fst (authorizeUpdate userId modifier newUser))
  = decide (proposedFields oldUser newUser) UserValidator.allowedSelfEdit.
Proof.
  intros Hfetch Hid.
  rewrite (authorizeUpdate_run _ _ _ _ Hfetch), (checkTier_self _ _ _ Hid).
  cbn [fst]. rewrite (check_decide _ _ allowedSelfEdit_names).
  apply decide_set_id.
Qed.

Lemma staff_edit_decide (userId : Z) (modifier newUser oldUser : obj) :
  UserService.fetchUser userService userId = inr oldUser ->
  get modifier "id" <> VNum userId ->
  get modifier "role" = VStr Jasenvirkailija ->
  decisionOf (fst (authorizeUpdate userId modifier newUser))
  = decide (proposedFields oldUser newUser) UserValidator.allowedJVEdit.
Proof.
  intros Hfetch Hid Hrole.
  rewrite (authorizeUpdate_run _ _ _ _ Hfetch),
    (checkTier_staff _ _ _ Hid Hrole).
  cbn [fst]. apply (check_decide _ _ allowedJVEdit_names).
Qed.

Lemma admin_edit_decide (userId : Z) (modifier newUser oldUser : obj) :
  UserService.fetchUser userService userId = inr oldUser ->
  get modifier "id" <> VNum userId ->
  get modifier "role" = VStr Yllapitaja ->
  Jasenvirkailija <> Yllapitaja ->
  decisionOf (fst (authorizeUpdate userId modifier newUser))
  = decide (proposedFields oldUser newUser) UserValidator.allowedAdminEdit.
Proof.
  intros Hfetch Hid Hrole Hne.
  rewrite (authorizeUpdate_run _ _ _ _ Hfetch),
    (checkTier_admin _ _ _ Hid Hrole Hne).
  cbn [fst]. apply (check_decide _ _ allowedAdminEdit_names).
Qed.

Lemma decisionOf_Reject {A} (r : exn + A) (e : exn) :
  decisionOf r = Reject e -> r = inl e.
Proof. destruct r; simpl; congruence. Qed.

Lemma decisionOf_Accept (r : exn + unit) :
  decisionOf r = Accept -> r = inr tt.
Proof. destruct r as [e|[]]; simpl; congruence. Qed.

(** Whatever the tier, a proposed field outside its allowed set makes
    the permission check throw. *)
Lemma tier_rejects (userId : Z) (modifier newUser oldUser : obj)
  (allowed : list string) :
  UserService.fetchUser userService userId = inr oldUser ->
  tier Jasenvirkailija Yllapitaja userId modifier allowed ->
  decide (proposedFields oldUser newUser) allowed = Reject Forbidden ->
  fst (authorizeUpdate userId modifier newUser) = inl Forbidden.
Proof.
  intros Hfetch Htier Hd. apply decisionOf_Reject.
  destruct Htier as [Hid|Hid Hrole|Hid Hrole].
  - rewrite (self_edit_decide _ _ _ _ Hfetch Hid). exact Hd.
  - rewrite (staff_edit_decide _ _ _ _ Hfetch Hid Hrole). exact Hd.
  - destruct (String.eqb Jasenvirkailija Yllapitaja) eqn:E.
    + apply String.eqb_eq in E.
      rewrite (staff_edit_decide _ _ _ _ Hfetch Hid) by congruence.
      apply (decide_mono _ UserValidator.allowedJVEdit
               UserValidator.allowedAdminEdit);
        [apply incl_appl, incl_refl | exact Hd].
    + apply String.eqb_neq in E.
      rewrite (admin_edit_decide _ _ _ _ Hfetch Hid Hrole E). exact Hd.
Qed.

(** Whatever the tier, a payload whose proposed fields all lie in the
    allowed set passes the permission check. *)
Lemma tier_accepts (userId : Z) (modifier newUser oldUser : obj)
  (allowed : list string) :
  UserService.fetchUser userService userId = inr oldUser ->
  tier Jasenvirkailija Yllapitaja userId modifier allowed ->
  Jasenvirkailija <> Yllapitaja ->
  decide (proposedFields oldUser newUser) allowed = Accept ->
  fst (authorizeUpdate userId modifier newUser) = inr tt.
Proof.
  intros Hfetch Htier Hne Hd. apply decisionOf_Accept.
  destruct Htier as [Hid|Hid Hrole|Hid Hrole].
  - rewrite (self_edit_decide _ _ _ _ Hfetch Hid). exact Hd.
  - rewrite (staff_edit_decide _ _ _ _ Hfetch Hid Hrole). exact Hd.
  - rewrite (admin_edit_decide _ _ _ _ Hfetch Hid Hrole Hne). exact Hd.
Qed.

(** ** The field-edit authorizer *)

(** C1. Under each of the three tiers, as soon as one proposed field
    (a field left once the no-op entries are dropped) is neither in
    the tier's allowed set nor the identifier [id], the validation
    throws, so the update is rejected as a whole; what it throws is
    always the same [ServiceError(403, "Forbidden modify action")],
    which names no field. *)
Theorem C1_forbidden_field_rejects_update
  (userId : Z) (modifier newUser oldUser : obj) (allowed : list string) :
  UserService.fetchUser userService userId = inr oldUser ->
  tier Jasenvirkailija Yllapitaja userId modifier allowed ->
  (exists k, In k (proposedFields oldUser newUser)
             /\ ~ In k allowed /\ k <> "id") ->
  fst (validateUpdate userId modifier newUser)
  = inl (ServiceError 403 "Forbidden modify action").
Proof.
  intros Hfetch Htier Hbad.
  assert (Hrej : fst (authorizeUpdate userId modifier newUser)
                 = inl Forbidden).
  { apply (tier_rejects _ _ _ _ _ Hfetch Htier).
    now apply decide_Reject. }
  now rewrite (validateUpdate_rejected _ _ _ _ Hrej).
Qed.

(** C2. On a self-edit (the modifier's id is the target's), whatever
    the modifier's role, the permission decision of [validateUpdate]
    is the one the specification computes from the proposed fields and
    the set screenName, email, residence, phone, isHYYMember, isTKTL,
    password1, password2: it accepts exactly when every proposed field
    is in that set or is [id], and rejects with Forbidden otherwise. *)
Theorem C2_self_edit_allowed_set
  (userId : Z) (modifier newUser oldUser : obj) :
  UserService.fetchUser userService userId = inr oldUser ->
  get modifier "id" = VNum userId ->
  let answer := decisionOf (fst (authorizeUpdate userId modifier newUser)) in
  let allowed := ["screenName"; "email"; "residence"; "phone";
                  "isHYYMember"; "isTKTL"; "password1"; "password2"] in
  answer = decide (proposedFields oldUser newUser) allowed
  /\ (answer = Accept <->
      forall k, In k (proposedFields oldUser newUser) ->
                In k allowed \/ k = "id")
  /\ (answer <> Accept ->
      answer = Reject (ServiceError 403 "Forbidden modify action")).
Proof.
  intros Hfetch Hid answer allowed.
  assert (H : answer = decide (proposedFields oldUser newUser) allowed)
    by apply (self_edit_decide _ _ _ _ Hfetch Hid).
  split; [exact H|]. rewrite H. split.
  - apply decide_Accept.
  - intros Hn. destruct (decide_cases (proposedFields oldUser newUser) allowed);
      [contradiction | assumption].
Qed.

(** C3. When the modifier is not the target: a Jasenvirkailija is
    answered from the self-edit set plus name, username, membership; a
    Yllapitaja from that set plus role, createdAt; each is accepted
    exactly when every proposed field is in the set or is [id], and
    rejected with Forbidden otherwise; a modifier of any other role is
    rejected with Forbidden whatever the payload. *)
Theorem C3_staff_and_admin_sets
  (userId : Z) (modifier newUser oldUser : obj) :
  UserService.fetchUser userService userId = inr oldUser ->
  get modifier "id" <> VNum userId ->
  Jasenvirkailija <> Yllapitaja ->
  let answer := decisionOf (fst (authorizeUpdate userId modifier newUser)) in
  let self := ["screenName"; "email"; "residence"; "phone";
               "isHYYMember"; "isTKTL"; "password1"; "password2"] in
  let staff := (self ++ ["name"; "username"; "membership"])%list in
  let admin := (staff ++ ["role"; "createdAt"])%list in
  (get modifier "role" = VStr Jasenvirkailija ->
   answer = decide (proposedFields oldUser newUser) staff
   /\ (answer = Accept <->
       forall k, In k (proposedFields oldUser newUser) ->
                 In k staff \/ k = "id"))
  /\ (get modifier "role" = VStr Yllapitaja ->
      answer = decide (proposedFields oldUser newUser) admin
      /\ (answer = Accept <->
          forall k, In k (proposedFields oldUser newUser) ->
                    In k admin \/ k = "id"))
  /\ (get modifier "role" <> VStr Jasenvirkailija ->
      get modifier "role" <> VStr Yllapitaja ->
      answer = Reject (ServiceError 403 "Forbidden modify action"))
  /\ (answer = Accept
      \/ answer = Reject (ServiceError 403 "Forbidden modify action")).
Proof.
  intros Hfetch Hid Hne answer self staff admin.
  assert (Hstaff : get modifier "role" = VStr Jasenvirkailija ->
                   answer = decide (proposedFields oldUser newUser) staff)
    by (intros Hr; apply (staff_edit_decide _ _ _ _ Hfetch Hid Hr)).
  assert (Hadmin : get modifier "role" = VStr Yllapitaja ->
                   answer = decide (proposedFields oldUser newUser) admin)
    by (intros Hr; apply (admin_edit_decide _ _ _ _ Hfetch Hid Hr Hne)).
  assert (Hother : get modifier "role" <> VStr Jasenvirkailija ->
                   get modifier "role" <> VStr Yllapitaja ->
                   answer = Reject Forbidden).
  { intros H1 H2. unfold answer.
    now rewrite (authorizeUpdate_run _ _ _ _ Hfetch),
      (checkTier_other _ _ _ Hid H1 H2). }
  repeat split.
  - now apply Hstaff.
  - rewrite (Hstaff H). apply decide_Accept.
  - rewrite (Hstaff H). apply decide_Accept.
  - now apply Hadmin.
  - rewrite (Hadmin H). apply decide_Accept.
  - rewrite (Hadmin H). apply decide_Accept.
  - exact Hother.
  - destruct (strict_eq (get modifier "role") (VStr Jasenvirkailija)) eqn:E1.
    + apply strict_eq_spec in E1. rewrite (Hstaff E1). apply decide_cases.
    + apply strict_eq_false in E1.
      destruct (strict_eq (get modifier "role") (VStr Yllapitaja)) eqn:E2.
      * apply strict_eq_spec in E2. rewrite (Hadmin E2). apply decide_cases.
      * apply strict_eq_false in E2. right. now apply Hother.
Qed.

(** C5. The permission check of [validateUpdate] runs on the payload
    as the removal loop leaves it, and that payload holds no field
    whose proposed value is the value the stored user has for it.  So
    when every field of the payload carries its stored value, no
    proposed field is left and each of the three tiers accepts. *)
Theorem C5_noop_fields_dropped_before_check
  (userId : Z) (modifier newUser oldUser : obj) :
  UserService.fetchUser userService userId = inr oldUser ->
  let checked := snd (UserValidator.removeUnchanged oldUser newUser) in
  authorizeUpdate userId modifier newUser = checkTier userId modifier checked
  /\ (forall k v, storedValue oldUser k = Some v -> get newUser k = v ->
                  ~ In k (keys checked))
  /\ (forall allowed,
        tier Jasenvirkailija Yllapitaja userId modifier allowed ->
        (forall k, In k (keys newUser) ->
                   storedValue oldUser k = Some (get newUser k)) ->
        checked = []
        /\ decisionOf (fst (authorizeUpdate userId modifier newUser))
           = Accept).
Proof.
  intros Hfetch checked.
  assert (Hc : checked = withoutNoOps oldUser newUser)
    by (unfold checked; now rewrite removeUnchanged_run).
  split; [|split].
  - rewrite Hc. apply (authorizeUpdate_run _ _ _ _ Hfetch).
  - intros k v Hs Hv Hin. rewrite Hc in Hin.
    now apply (withoutNoOps_drops _ _ _ _ Hs Hv).
  - intros allowed Htier Hall.
    assert (Hnil : withoutNoOps oldUser newUser = []).
    { unfold withoutNoOps.
      assert (Hf : forall l : obj,
                 (forall p, In p l ->
                    sameAsStored oldUser newUser (fst p) = true) ->
                 filter (fun p => negb (sameAsStored oldUser newUser (fst p)))
                        l = []).
      { induction l as [|p l IH]; intros Hl; simpl; [reflexivity|].
        rewrite (Hl p (or_introl eq_refl)). simpl.
        apply IH. intros q Hq. apply Hl. now right. }
      apply Hf. intros p Hp. unfold sameAsStored.
      rewrite (Hall (fst p) (In_keys _ _ Hp)).
      now apply strict_eq_spec. }
    split; [now rewrite Hc|].
    destruct (String.eqb Jasenvirkailija Yllapitaja) eqn:E.
    + apply String.eqb_eq in E.
      rewrite (authorizeUpdate_run _ _ _ _ Hfetch), Hnil.
      destruct Htier as [Hid|Hid Hrole|Hid Hrole].
      * now rewrite (checkTier_self _ _ _ Hid).
      * now rewrite (checkTier_staff _ _ _ Hid Hrole).
      * rewrite (checkTier_staff _ _ _ Hid) by congruence. reflexivity.
    + apply String.eqb_neq in E.
      rewrite (tier_accepts _ _ _ _ _ Hfetch Htier E); [reflexivity|].
      unfold proposedFields. now rewrite Hnil.
Qed.

(** C10. [validateUpdate] works on the caller's payload object.  Once
    the stored user is fetched, the payload the permission check
    leaves behind is the incoming one without the entries that carry
    the stored value and, on the self-edit path, with [id] set to the
    target's id; when the check then throws, this changed payload is
    what the caller is left with. *)
Theorem C10_payload_mutated_despite_rejection
  (userId : Z) (modifier newUser oldUser : obj) :
  UserService.fetchUser userService userId = inr oldUser ->
  let left := snd (authorizeUpdate userId modifier newUser) in
  (forall k v, storedValue oldUser k = Some v -> get newUser k = v ->
               k <> "id" -> ~ In k (keys left))
  /\ (get modifier "id" = VNum userId ->
      left = set "id" (VNum userId) (withoutNoOps oldUser newUser)
      /\ get left "id" = VNum userId)
  /\ (get modifier "id" <> VNum userId ->
      left = withoutNoOps oldUser newUser)
  /\ (fst (authorizeUpdate userId modifier newUser) = inl Forbidden ->
      validateUpdate userId modifier newUser = (inl Forbidden, left)).
Proof.
  intros Hfetch left.
  assert (Hself : get modifier "id" = VNum userId ->
                  left = set "id" (VNum userId) (withoutNoOps oldUser newUser)).
  { intros Hid. unfold left.
    now rewrite (authorizeUpdate_run _ _ _ _ Hfetch),
      (checkTier_self _ _ _ Hid). }
  assert (Hother : get modifier "id" <> VNum userId ->
                   left = withoutNoOps oldUser newUser).
  { intros Hid. unfold left.
    rewrite (authorizeUpdate_run _ _ _ _ Hfetch).
    unfold UserValidator.checkTier.
    rewrite (proj2 (strict_eq_false (VNum userId) (get modifier "id")))
      by congruence.
    cbn [negb andb].
    destruct (strict_eq (get modifier "role") (VStr Jasenvirkailija));
      [reflexivity|].
    destruct (strict_eq (get modifier "role") (VStr Yllapitaja));
      reflexivity. }
  assert (Hgone : forall k v, storedValue oldUser k = Some v ->
                    get newUser k = v ->
                    ~ In k (keys (withoutNoOps oldUser newUser)))
    by apply withoutNoOps_drops.
  split; [|split; [|split]].
  - intros k v Hs Hv Hk Hin.
    destruct (strict_eq (get modifier "id") (VNum userId)) eqn:E.
    + apply strict_eq_spec in E. rewrite (Hself E) in Hin.
      apply In_keys_set in Hin. destruct Hin as [->|Hin];
        [now apply Hk | now apply (Hgone k v)].
    + apply strict_eq_false in E. rewrite (Hother E) in Hin.
      now apply (Hgone k v).
  - intros Hid. split; [now apply Hself|].
    rewrite (Hself Hid). apply get_set_same.
  - exact Hother.
  - intros Hrej. apply (validateUpdate_rejected _ _ _ _ Hrej).
Qed.

End ValidatorFacts.

(** ** The permission mask evaluator *)

Lemma ToInt32_range (z : Z) : - 2 ^ 31 <= ToInt32 z < 2 ^ 31.
Proof.
  unfold ToInt32.
  pose proof (Z.mod_pos_bound (z + 2 ^ 31) (2 ^ 32) eq_refl). lia.
Qed.

(** Wrapping into int32 keeps the low 32 bits. *)
Lemma ToInt32_bits (z i : Z) :
  0 <= i < 32 -> Z.testbit (ToInt32 z) i = Z.testbit z i.
Proof.
  intros Hi.
  rewrite <- (Z.mod_pow2_bits_low (ToInt32 z) 32 i) by lia.
  rewrite <- (Z.mod_pow2_bits_low z 32 i) by lia.
  f_equal. unfold ToInt32.
  rewrite Zminus_mod, Z.mod_mod by lia.
  rewrite <- Zminus_mod. f_equal. lia.
Qed.

Lemma ToInt32_small (z : Z) : - 2 ^ 31 <= z < 2 ^ 31 -> ToInt32 z = z.
Proof. intros H. unfold ToInt32. rewrite Z.mod_small; lia. Qed.

Lemma land_pow2 (i x : Z) :
  0 <= i -> Z.land (2 ^ i) x = if Z.testbit x i then 2 ^ i else 0.
Proof.
  intros Hi. apply Z.bits_inj'. intros n Hn.
  rewrite Z.land_spec, Z.pow2_bits_eqb by assumption.
  destruct (Z.eqb_spec i n) as [->|Hne].
  - destruct (Z.testbit x n); simpl.
    + now rewrite Z.pow2_bits_true.
    + now rewrite Z.bits_0.
  - simpl. destruct (Z.testbit x i).
    + now rewrite Z.pow2_bits_false.
    + now rewrite Z.bits_0.
Qed.

Lemma pow2_pos (i : nat) : 0 < pow2 i.
Proof. unfold pow2. apply Z.pow_pos_nonneg; lia. Qed.

Lemma bitSet_testbit (mask : Z) (i : nat) :
  Disclosure.bitSet mask i = Z.testbit mask (Z.of_nat i).
Proof.
  unfold Disclosure.bitSet.
  change 1 with (Z.ones 1) at 1. rewrite Z.land_ones by lia.
  change (2 ^ 1) with 2. rewrite <- Z.bit0_eqb.
  now rewrite Z.shiftr_spec by lia.
Qed.

(** The test of line 94: it reads bit [idx] of the mask as long as
    [idx] is below 31 and fails from 31 on, where [Math.pow(2, idx)]
    no longer is an int32. *)
Lemma bit_test (idx : nat) (mask : Z) :
  Z.eqb (band (pow2 idx) mask) (pow2 idx)
  = Nat.ltb idx 31 && Disclosure.bitSet mask idx.
Proof.
  rewrite bitSet_testbit.
  pose proof (pow2_pos idx) as Hpos.
  destruct (Nat.ltb_spec idx 31) as [Hlt|Hge]; simpl.
  - assert (Hp : pow2 idx < 2 ^ 31)
      by (unfold pow2; apply Z.pow_lt_mono_r; lia).
    unfold band. rewrite (ToInt32_small (pow2 idx)) by lia.
    unfold pow2 in *. rewrite land_pow2, ToInt32_bits by lia.
    destruct (Z.testbit mask (Z.of_nat idx)).
    + apply Z.eqb_refl.
    + apply Z.eqb_neq. lia.
  - apply Z.eqb_neq. unfold band.
    pose proof (ToInt32_range mask) as Hm.
    destruct (Nat.eq_dec idx 31) as [->|Hne].
    + change (ToInt32 (pow2 31)) with (- 2 ^ 31).
      change (pow2 31) with (2 ^ 31). intros Heq.
      destruct (Z.lt_ge_cases (ToInt32 mask) 0) as [Hneg|Hnn].
      * assert (Z.land (- 2 ^ 31) (ToInt32 mask) < 0)
          by (apply Z.land_neg; lia).
        lia.
      * assert (Hb : Z.testbit (Z.land (- 2 ^ 31) (ToInt32 mask)) 31 = true).
        { rewrite Heq. apply Z.pow2_bits_true. lia. }
        rewrite Z.land_spec in Hb. apply andb_true_iff in Hb.
        destruct Hb as [_ Hb].
        assert (Hf : Z.testbit (ToInt32 mask) 31 = false).
        { apply Z.testbit_false; [lia|]. rewrite Z.div_small by lia.
          reflexivity. }
        congruence.
    + assert (Hz : ToInt32 (pow2 idx) = 0).
      { unfold ToInt32, pow2.
        replace (Z.of_nat idx) with ((Z.of_nat idx - 32) + 32) by lia.
        rewrite Z.pow_add_r by lia.
        rewrite Z.add_comm, Z.mod_add by lia. reflexivity. }
      rewrite Hz, Z.land_0_l. lia.
Qed.

Lemma pushVisible_fieldsFrom (user : obj) (ks : list string) (idx : nat)
  (mask : Z) (acc : list Res.field) :
  AuthController.pushVisible user ks idx mask acc
  = (acc ++ Disclosure.fieldsFrom
              (fun i => Nat.ltb i 31 && Disclosure.bitSet mask i)
              user ks idx)%list.
Proof.
  revert idx acc. induction ks as [|k ks IH]; intros idx acc; simpl.
  - now rewrite app_nil_r.
  - rewrite IH, bit_test.
    destruct (Nat.ltb idx 31 && Disclosure.bitSet mask idx);
      [now rewrite <- app_assoc | reflexivity].
Qed.

(** Only the indices of the keys at hand matter. *)
Lemma fieldsFrom_ext (f g : nat -> bool) (user : obj) (ks : list string)
  (i : nat) :
  (forall j, (i <= j < i + List.length ks)%nat -> f j = g j) ->
  Disclosure.fieldsFrom f user ks i = Disclosure.fieldsFrom g user ks i.
Proof.
  revert i. induction ks as [|k ks IH]; intros i H; simpl; [reflexivity|].
  rewrite (H i) by (simpl; lia).
  rewrite (IH (S i)) by (intros j Hj; apply H; simpl; lia).
  reflexivity.
Qed.

Lemma fieldsFrom_none (f : nat -> bool) (user : obj) (ks : list string)
  (i : nat) :
  (forall j, f j = false) -> Disclosure.fieldsFrom f user ks i = [].
Proof.
  intros H. revert i. induction ks as [|k ks IH]; intros i; simpl;
    [reflexivity|]. now rewrite H, IH.
Qed.

Lemma selectVisibleFields_low (user : obj) (mask : Z) :
  AuthController.selectVisibleFields user mask
  = Disclosure.fieldsWithLowBitSet user mask.
Proof.
  unfold AuthController.selectVisibleFields.
  now rewrite pushVisible_fieldsFrom.
Qed.

(** The loop of [requestPermissions] on any object and any integer
    mask: it returns, in key order, exactly the fields whose ordinal
    index [i] is below 31 and has bit [i] of the mask set. *)
Lemma selectVisibleFields_exact (user : obj) (mask : Z) :
  AuthController.selectVisibleFields user mask
  = Disclosure.fieldsWithLowBitSet user mask
  /\ ((List.length (keys user) <= 31)%nat ->
      AuthController.selectVisibleFields user mask
      = Disclosure.fieldsWithBitSet user mask)
  /\ AuthController.selectVisibleFields user 0 = []
  /\ (forall extra,
        AuthController.selectVisibleFields user
          (mask + extra * 2 ^ Z.of_nat (List.length (keys user)))
        = AuthController.selectVisibleFields user mask).
Proof.
  split; [apply selectVisibleFields_low|]. split; [|split].
  - intros Hlen. rewrite selectVisibleFields_low.
    apply fieldsFrom_ext. intros j Hj.
    assert (H : Nat.ltb j 31 = true) by (apply Nat.ltb_lt; lia).
    now rewrite H.
  - rewrite selectVisibleFields_low. apply fieldsFrom_none.
    intros j. rewrite bitSet_testbit, Z.bits_0. apply andb_false_r.
  - intros extra. rewrite !selectVisibleFields_low.
    apply fieldsFrom_ext. intros j Hj. f_equal.
    rewrite !bitSet_testbit.
    rewrite <- (Z.mod_pow2_bits_low _ (Z.of_nat (List.length (keys user))))
      by lia.
    rewrite Z.mod_add by (apply Z.pow_nonzero; lia).
    apply Z.mod_pow2_bits_low. lia.
Qed.

(** Every user of the schema is within reach of an int32 mask. *)
Lemma User_fields_within_int32 (user : obj) :
  keys user = User.fields -> (List.length (keys user) <= 31)%nat.
Proof. intros ->. simpl. lia. Qed.

(** C4. For every user of at most 31 fields, as every user of the
    schema is with its 15, and every non-negative integer mask, the
    loop of [requestPermissions] returns exactly the fields of the
    user whose ordinal index [i] has bit [i] of the mask set, in
    canonical key order.  The mask 0 gives the empty list, and bits
    set at or beyond the number of fields change nothing. *)
Theorem C4_visible_fields_follow_mask_bits (user : obj) (mask : Z) :
  (List.length (keys user) <= 31)%nat ->
  0 <= mask ->
  AuthController.selectVisibleFields user mask
  = Disclosure.fieldsWithBitSet user mask
  /\ AuthController.selectVisibleFields user 0 = []
  /\ (forall extra,
        0 <= extra ->
        AuthController.selectVisibleFields user
          (mask + extra * 2 ^ Z.of_nat (List.length (keys user)))
        = AuthController.selectVisibleFields user mask).
Proof.
  intros Hlen _. split; [|split].
  - rewrite selectVisibleFields_low.
    apply fieldsFrom_ext. intros j Hj.
    assert (H : Nat.ltb j 31 = true) by (apply Nat.ltb_lt; lia).
    now rewrite H.
  - rewrite selectVisibleFields_low. apply fieldsFrom_none.
    intros j. rewrite bitSet_testbit, Z.bits_0. apply andb_false_r.
  - intros extra _. rewrite !selectVisibleFields_low.
    apply fieldsFrom_ext. intros j Hj. f_equal.
    rewrite !bitSet_testbit.
    rewrite <- (Z.mod_pow2_bits_low _ (Z.of_nat (List.length (keys user))))
      by lia.
    rewrite Z.mod_add by (apply Z.pow_nonzero; lia).
    apply Z.mod_pow2_bits_low. lia.
Qed.

(** ** The controller *)

Lemma falsy_values (v : value) :
  truthy v = false <->
  v = VUndefined \/ v = VNull \/ v = VBool false \/ v = VNum 0
  \/ v = VStr EmptyString.
Proof.
  destruct v as [| |b|n|s|l]; simpl.
  - intuition.
  - intuition.
  - destruct b; intuition congruence.
  - rewrite negb_false_iff, Z.eqb_eq. intuition congruence.
  - rewrite negb_false_iff, String.eqb_eq. intuition congruence.
  - intuition congruence.
Qed.

(** An absent property reads [undefined], which is falsy. *)
Lemma get_absent (o : obj) (k : string) :
  ~ In k (keys o) -> get o k = VUndefined.
Proof.
  induction o as [|[k0 v] o IH]; simpl; intros H; [reflexivity|].
  destruct (String.eqb k0 k) eqn:E.
  - apply String.eqb_eq in E. exfalso. apply H. now left.
  - apply IH. intros Hin. apply H. now right.
Qed.

Section ControllerFacts.

Context (authService : AuthenticationService.t).
Context (hostname : value -> exn + string).

(** C8. When [userId] or [permission] is missing from the body
    (absent, empty or zero, that is falsy), [authenticate] answers 400
    "Invalid POST params" and has made no call to the token codec. *)
Theorem C8_missing_parameter_mints_no_token (body : obj) :
  truthy (get body "userId") = false
  \/ truthy (get body "permission") = false ->
  AuthController.authenticate authService body
  = (inr (Res.Json (VNum 400)
            (ServiceResponse.Build None "Invalid POST params")),
     []).
Proof.
  intros H. unfold AuthController.authenticate.
  destruct H as [H|H]; rewrite H; cbn [negb];
    now rewrite ?orb_true_r.
Qed.

(** The second minting handler checks its parameters the same way. *)
Lemma vanillaAuthenticate_missing_parameter (body : obj) :
  truthy (get body "userId") = false
  \/ truthy (get body "permissionVal") = false ->
  AuthController.vanillaAuthenticate authService hostname body
  = (inr (Res.Json (VNum 400)
            (ServiceResponse.Build None "Invalid POST params")),
     []).
Proof.
  intros H. unfold AuthController.vanillaAuthenticate.
  destruct H as [H|H]; rewrite H; cbn [negb];
    now rewrite ?orb_true_r.
Qed.

(** C6 (what the code does). With all four parameters present,
    [authenticate] makes one call to the token codec, and that call
    binds the body's [userId] to the constant level 1, never to the
    permission the body carries; the token it answers with is the one
    minted for that pair. *)
Theorem C6_authenticate_mints_level_one (body : obj) :
  truthy (get body "serviceName") = true ->
  truthy (get body "redirectTo") = true ->
  truthy (get body "permission") = true ->
  truthy (get body "userId") = true ->
  snd (AuthController.authenticate authService body)
  = [AuthController.CreateToken (get body "userId") (VNum 1)]
  /\ (forall token,
        AuthenticationService.createToken authService
          (get body "userId") (VNum 1) = inr token ->
        fst (AuthController.authenticate authService body)
        = inr (Res.Json (VNum 200)
                 (ServiceResponse.Build
                    (Some [("token", VStr token);
                           ("redirectTo", get body "redirectTo")])
                    "Success"))).
Proof.
  intros H1 H2 H3 H4. unfold AuthController.authenticate.
  rewrite H1, H2, H3, H4. cbn [negb orb].
  unfold AuthController.createToken.
  split.
  - now destruct (AuthenticationService.createToken _ _ _).
  - intros token Ht. now rewrite Ht.
Qed.

(** The sibling handler hands the supplied level to the codec. *)
Lemma vanillaAuthenticate_mints_supplied_level (body : obj) :
  truthy (get body "permissionVal") = true ->
  truthy (get body "redirectTo") = true ->
  truthy (get body "permission") = true ->
  truthy (get body "userId") = true ->
  snd (AuthController.vanillaAuthenticate authService hostname body)
  = [AuthController.CreateToken (get body "userId")
       (get body "permissionVal")].
Proof.
  intros H1 H2 H3 H4. unfold AuthController.vanillaAuthenticate.
  rewrite H1, H2, H3, H4. cbn [negb orb].
  unfold AuthController.createToken.
  destruct (AuthenticationService.createToken _ _ _); [reflexivity|].
  now destruct (hostname _).
Qed.

End ControllerFacts.

(** ** The middlewares *)

Section MiddlewareFacts.

Context {ServiceToken : Type}.
Context (stringToServiceToken : string -> exn + ServiceToken).

Local Abbreviation authorize := (Authorize.authorize stringToServiceToken).
Local Abbreviation loadToken := (Authorize.loadToken stringToServiceToken).

Lemma tryDecode_failure (raw : string) (e : exn) :
  stringToServiceToken raw = inl e ->
  Authorize.tryDecode stringToServiceToken raw
  = Authorize.Responded
      (Res.Json (VNum 500) (ServiceResponse.Build None (message e))).
Proof. intros H. unfold Authorize.tryDecode. now rewrite H. Qed.

Lemma isBearer_false (token : option string) :
  (forall t, token = Some t -> startsWith "Bearer " t = false) ->
  Authorize.isBearer token = false.
Proof.
  intros H. destruct token as [t|]; [|reflexivity]. simpl.
  rewrite (H t eq_refl). apply andb_false_r.
Qed.

(** C7 (as amended). A token the decoder refuses is answered with
    status 500 and a body whose message is the message of the
    decoder's exception: by [authorize] and [loadToken] for a Bearer
    header, and by [loadToken] for a token cookie.  The fixed 401
    "Unauthorized" is what [authorize] answers to the requests
    without a Bearer header, those whose authorization header is
    missing or does not start with "Bearer ", and to no other. *)
Theorem C7_decode_failure_answered_with_its_message
  (req : Authorize.IASRequest) (e : exn) :
  let token := Authorize.header req "authorization" in
  let failure :=
    Authorize.Responded
      (Res.Json (VNum 500) (ServiceResponse.Build None (message e))) in
  (Authorize.isBearer token = true ->
   stringToServiceToken (Authorize.bearerValue token) = inl e ->
   authorize req = failure /\ loadToken req = failure)
  /\ (Authorize.isBearer token = false ->
      forall cookie,
        Authorize.header req "cookie" = Some cookie ->
        (1 < List.length (split "token=" cookie))%nat ->
        stringToServiceToken (nth 1 (split "token=" cookie) EmptyString)
        = inl e ->
        loadToken req = failure)
  /\ (authorize req
      = Authorize.Responded
          (Res.Json (VNum 401) (ServiceResponse.Build None "Unauthorized"))
      <-> Authorize.isBearer token = false)
  /\ (Authorize.isBearer token = false
      <-> forall t, token = Some t -> startsWith "Bearer " t = false).
Proof.
  intros token failure. unfold Authorize.authorize, Authorize.loadToken.
  fold token. split; [|split; [|split]].
  - intros Hb He. rewrite Hb. cbn [negb].
    now rewrite (tryDecode_failure _ _ He).
  - intros Hb cookie Hc Hlen He. rewrite Hb, Hc.
    apply Nat.ltb_lt in Hlen. rewrite Hlen.
    apply (tryDecode_failure _ _ He).
  - split.
    + destruct (Authorize.isBearer token); [|reflexivity]. cbn [negb].
      unfold Authorize.tryDecode.
      destruct (stringToServiceToken (Authorize.bearerValue token));
        discriminate.
    + intros Hb. now rewrite Hb.
  - split; [|apply isBearer_false].
    destruct token as [t|]; [|discriminate]. simpl.
    intros H t' Ht'. injection Ht' as <-.
    apply andb_false_iff in H. destruct H as [H|H]; [|exact H].
    apply negb_false_iff, String.eqb_eq in H. now subst.
Qed.

(** C9. A request with no authorization header that starts with
    "Bearer " and with no cookie header makes [loadToken] throw a
    TypeError: it neither answers nor calls [next()]. *)
Theorem C9_loadToken_throws_without_cookie (req : Authorize.IASRequest) :
  (forall t, Authorize.header req "authorization" = Some t ->
             startsWith "Bearer " t = false) ->
  Authorize.header req "cookie" = None ->
  exists m, loadToken req = Authorize.Uncaught (TypeError m).
Proof.
  intros Hauth Hcookie. unfold Authorize.loadToken.
  rewrite (isBearer_false _ Hauth), Hcookie. eexists. reflexivity.
Qed.

End MiddlewareFacts.

(** ** The theorems at work on the sample data *)

(** The owner sends a new role along with the unchanged name: the
    update is refused as a whole. *)
Lemma C1_witness_owner_cannot_promote :
  fst (Sample.validateUpdate 1 Sample.owner Sample.promote)
  = inl (ServiceError 403 "Forbidden modify action").
Proof.
  apply (C1_forbidden_field_rejects_update
           Sample.userService Sample.JV Sample.YP Sample.equals
           Sample.isEmail Sample.isLength Sample.toBoolean Sample.noTrim
           1 Sample.owner Sample.promote Sample.stored
           ["screenName"; "email"; "residence"; "phone";
            "isHYYMember"; "isTKTL"; "password1"; "password2"]).
  - reflexivity.
  - apply SelfEdit. reflexivity.
  - exists "role". split; [vm_compute; auto|].
    split; [simpl; intuition discriminate | discriminate].
Defined.

(** The owner changes e-mail and phone: accepted. *)
Lemma C2_witness_owner_edits_contact :
  decisionOf (fst (Sample.authorizeUpdate 1 Sample.owner Sample.contact))
  = Accept.
Proof.
  pose proof (C2_self_edit_allowed_set
                Sample.userService Sample.JV Sample.YP
                1 Sample.owner Sample.contact Sample.stored
                eq_refl eq_refl) as H.
  cbv zeta in H. destruct H as [_ [H _]]. apply H.
  intros k Hk. vm_compute in Hk.
  destruct Hk as [<-|[<-|[]]]; simpl; tauto.
Defined.

(** A Jasenvirkailija renames another user and changes the
    membership: accepted. *)
Lemma C3_witness_staff_edits_username :
  decisionOf
    (fst (Sample.authorizeUpdate 1 Sample.staff
            [("username", VStr "renamed"); ("membership", VStr "ei-jasen")]))
  = Accept.
Proof.
  assert (Hid : get Sample.staff "id" <> VNum 1) by discriminate.
  assert (Hne : Sample.JV <> Sample.YP) by discriminate.
  pose proof (C3_staff_and_admin_sets
                Sample.userService Sample.JV Sample.YP
                1 Sample.staff
                [("username", VStr "renamed");
                 ("membership", VStr "ei-jasen")]
                Sample.stored eq_refl Hid Hne) as H.
  cbv zeta in H. destruct H as [H _].
  destruct (H eq_refl) as [Hd _].
  unfold Sample.authorizeUpdate. rewrite Hd. reflexivity.
Defined.

(** A Jasenvirkailija sends nothing but stored values: nothing is
    left to check, accepted. *)
Lemma C5_witness_staff_sends_stored_values :
  snd (UserValidator.removeUnchanged Sample.stored Sample.same) = []
  /\ decisionOf (fst (Sample.authorizeUpdate 1 Sample.staff Sample.same))
     = Accept.
Proof.
  assert (Hid : get Sample.staff "id" <> VNum 1) by discriminate.
  pose proof (C5_noop_fields_dropped_before_check
                Sample.userService Sample.JV Sample.YP
                1 Sample.staff Sample.same Sample.stored eq_refl) as H.
  cbv zeta in H. destruct H as [_ [_ H]].
  apply (H _ (StaffEdit Sample.JV Sample.YP 1 Sample.staff Hid eq_refl)).
  intros k Hk. simpl in Hk.
  destruct Hk as [<-|[<-|[<-|[<-|[]]]]]; reflexivity.
Defined.

(** The owner's refused update leaves the payload without the name
    and with an id. *)
Lemma C10_witness_refused_payload_is_changed :
  Sample.validateUpdate 1 Sample.owner Sample.promote
  = (inl (ServiceError 403 "Forbidden modify action"),
     [("role", VStr "yllapitaja"); ("id", VNum 1)]).
Proof.
  pose proof (C10_payload_mutated_despite_rejection
                Sample.userService Sample.JV Sample.YP Sample.equals
                Sample.isEmail Sample.isLength Sample.toBoolean
                Sample.noTrim 1 Sample.owner Sample.promote Sample.stored
                eq_refl) as H.
  cbv zeta in H. destruct H as [_ [_ [_ H]]].
  unfold Sample.validateUpdate. rewrite (H eq_refl). reflexivity.
Defined.

(** Five fields under the mask 0b00101: the first and the third. *)
Lemma C4_witness_five_fields_mask_5 :
  AuthController.selectVisibleFields Sample.five 5
  = [{| Res.name := "field0"; Res.value := VNum 10 |};
     {| Res.name := "field2"; Res.value := VNum 12 |}].
Proof.
  assert (Hlen : (List.length (keys Sample.five) <= 31)%nat)
    by (simpl; lia).
  assert (Hmask : 0 <= 5) by lia.
  rewrite (proj1 (C4_visible_fields_follow_mask_bits
                    Sample.five 5 Hlen Hmask)).
  reflexivity.
Defined.

(** An object of thirty-two fields, which no user of the schema is,
    under the mask 2^31: bit 31 is set, and the field of index 31 is
    not returned. *)
Example wide_object_field_31_is_not_listed :
  AuthController.selectVisibleFields Sample.wide (2 ^ 31) = []
  /\ Disclosure.fieldsWithBitSet Sample.wide (2 ^ 31)
     = [{| Res.name := "d7"; Res.value := VNum 31 |}].
Proof. split; vm_compute; reflexivity. Qed.

(** Level 7 is asked for user 5: the token minted is the one for
    level 1. *)
Lemma C6_witness_level_7_asked_level_1_minted :
  snd (AuthController.authenticate Sample.authService Sample.askSeven)
  = [AuthController.CreateToken (VNum 5) (VNum 1)]
  /\ fst (AuthController.authenticate Sample.authService Sample.askSeven)
     = inr (Res.Json (VNum 200)
              (ServiceResponse.Build
                 (Some [("token", VStr "5.1");
                        ("redirectTo", VStr "https://calendar.example")])
                 "Success"))
  /\ Sample.stringToServiceToken "5.1"
     = inr {| Sample.subjectId := 5; Sample.permissionLevel := 1 |}.
Proof.
  destruct (C6_authenticate_mints_level_one Sample.authService
              Sample.askSeven eq_refl eq_refl eq_refl eq_refl) as [H1 H2].
  split; [exact H1|]. split; [|reflexivity].
  apply (H2 "5.1"). reflexivity.
Defined.

(** A forged token in a cookie: the decoder's message is sent out. *)
Lemma C7_witness_forged_cookie :
  Authorize.loadToken Sample.stringToServiceToken
    (Sample.withCookie "lang=fi; token=forged")
  = Authorize.Responded
      (Res.Json (VNum 500) (ServiceResponse.Build None "invalid signature")).
Proof.
  pose proof (C7_decode_failure_answered_with_its_message
                Sample.stringToServiceToken
                (Sample.withCookie "lang=fi; token=forged")
                (Error "invalid signature")) as H.
  cbv zeta in H. destruct H as [_ [H _]].
  apply (H eq_refl "lang=fi; token=forged" eq_refl).
  - vm_compute. lia.
  - reflexivity.
Defined.

(** An expired and a forged Bearer token: status 500 both times, with
    the decoder's own message, which differs from one to the other. *)
Lemma C7_counterexample_message_echoed :
  Authorize.authorize Sample.stringToServiceToken (Sample.bearer "expired")
  = Authorize.Responded
      (Res.Json (VNum 500) (ServiceResponse.Build None "jwt expired"))
  /\ Authorize.authorize Sample.stringToServiceToken (Sample.bearer "forged")
     = Authorize.Responded
         (Res.Json (VNum 500)
            (ServiceResponse.Build None "invalid signature")).
Proof. split; reflexivity. Qed.

(** No permission in the body: 400, and the codec was not called. *)
Lemma C8_witness_no_permission :
  AuthController.authenticate Sample.authService Sample.askNothing
  = (inr (Res.Json (VNum 400)
            (ServiceResponse.Build None "Invalid POST params")),
     []).
Proof.
  apply (C8_missing_parameter_mints_no_token Sample.authService
           Sample.askNothing).
  right. reflexivity.
Defined.

(** A request with neither header. *)
Lemma C9_witness_bare_request :
  exists m,
    Authorize.loadToken Sample.stringToServiceToken Sample.bare
    = Authorize.Uncaught (TypeError m).
Proof.
  apply (C9_loadToken_throws_without_cookie Sample.stringToServiceToken
           Sample.bare).
  - intros t Ht. discriminate Ht.
  - reflexivity.
Defined.

(** ** Further runs *)

Example self_edit_of_role_is_forbidden :
  Sample.authorizeUpdate 1 Sample.owner [("role", VStr "yllapitaja")]
  = (inl Forbidden, [("role", VStr "yllapitaja"); ("id", VNum 1)]).
Proof. reflexivity. Qed.

Example staff_edit_of_role_is_forbidden :
  fst (Sample.authorizeUpdate 1 Sample.staff [("role", VStr "yllapitaja")])
  = inl Forbidden.
Proof. reflexivity. Qed.

Example admin_edit_of_role_and_createdAt_is_accepted :
  fst (Sample.authorizeUpdate 1 Sample.admin
         [("role", VStr "yllapitaja"); ("createdAt", VStr "2020-01-01")])
  = inr tt.
Proof. reflexivity. Qed.

(** A modifier of no tier is refused even when nothing would change. *)
Example stranger_is_forbidden_whatever_the_payload :
  Sample.authorizeUpdate 1 Sample.stranger Sample.same = (inl Forbidden, []).
Proof. reflexivity. Qed.

(** The loop's guard [oldUser[k] !== undefined]: an entry for which
    the stored user holds nothing is kept and checked. *)
Example entry_without_stored_value_is_checked :
  Sample.authorizeUpdate 1 Sample.owner [("nickname", VUndefined)]
  = (inl Forbidden, [("nickname", VUndefined); ("id", VNum 1)]).
Proof. reflexivity. Qed.

(** An unknown target: the lookup's error comes out, the payload is
    untouched. *)
Example unknown_target_is_not_found :
  Sample.validateUpdate 7 Sample.staff Sample.same
  = (inl (ServiceError 404 "User not found"), Sample.same).
Proof. reflexivity. Qed.

(** The sibling handler on the request that asks for level 7. *)
Example vanillaAuthenticate_mints_level_7 :
  snd (AuthController.vanillaAuthenticate Sample.authService
         (fun _ => inr "calendar.example") Sample.askSeven)
  = [AuthController.CreateToken (VNum 5) (VNum 7)].
Proof. reflexivity. Qed.

Example split_cookie :
  split "token=" "lang=fi; token=abc" = ["lang=fi; "; "abc"].
Proof. reflexivity. Qed.

Example split_without_separator : split "token=" "lang=fi" = ["lang=fi"].
Proof. reflexivity. Qed.

Example loadToken_without_token_cookie_goes_on :
  Authorize.loadToken Sample.stringToServiceToken (Sample.withCookie "lang=fi")
  = Authorize.Next None.
Proof. reflexivity. Qed.

(* ================================================================== *)
(** * Part III: further properties of the code *)
(* ================================================================== *)

(** ** Splitting strings *)

Lemma append_nil_r (s : string) : s ++ EmptyString = s.
Proof. induction s as [|c s IH]; simpl; [reflexivity | now rewrite IH]. Qed.

Lemma append_assoc (a b c : string) : (a ++ b) ++ c = a ++ b ++ c.
Proof. induction a as [|x a IH]; simpl; [reflexivity | now rewrite IH]. Qed.

Lemma string_of_list_ascii_app (l1 l2 : list ascii) :
  string_of_list_ascii (l1 ++ l2)
  = string_of_list_ascii l1 ++ string_of_list_ascii l2.
Proof. induction l1 as [|x l1 IH]; simpl; [reflexivity | now rewrite IH]. Qed.

Lemma prefix_append (sep s : string) : String.prefix sep (sep ++ s) = true.
Proof.
  induction sep as [|c sep IH]; simpl.
  - now destruct s.
  - destruct (ascii_dec c c); [exact IH | contradiction].
Qed.

Lemma prefix_drop (sep s : string) :
  String.prefix sep s = true -> s = sep ++ Text.drop (String.length sep) s.
Proof.
  revert s. induction sep as [|c sep IH]; intros s H; simpl.
  - reflexivity.
  - destruct s as [|d s]; simpl in H; [discriminate|].
    destruct (ascii_dec c d) as [->|]; [|discriminate].
    now rewrite <- (IH s H).
Qed.

Lemma drop_append (a s : string) : Text.drop (String.length a) (a ++ s) = s.
Proof. induction a as [|c a IH]; simpl; [reflexivity | exact IH]. Qed.

Lemma drop_length (n : nat) (s : string) :
  (String.length (Text.drop n s) <= String.length s)%nat.
Proof.
  revert s. induction n as [|n IH]; intros s; simpl; [lia|].
  destruct s as [|c s]; simpl; [lia|]. specialize (IH s). lia.
Qed.

(** Passing over the rest of a matched separator is dropping it. *)
Lemma split_from_skip (sep s : string) (n : nat) (cur : list ascii) :
  split_from sep s n cur = split_from sep (Text.drop n s) O cur.
Proof.
  revert n. induction s as [|c s IH]; intros n.
  - now destruct n.
  - destruct n as [|n]; [reflexivity|]. cbn [split_from Text.drop].
    apply IH.
Qed.

Lemma split_from_pieces (sep s : string) (n : nat) (cur : list ascii) :
  split_from sep s n cur <> [].
Proof.
  revert n cur. induction s as [|c s IH]; intros n cur; cbn [split_from].
  - discriminate.
  - destruct n; [|apply IH].
    destruct (String.prefix sep (String c s)); [discriminate | apply IH].
Qed.

Lemma concat_cons (sep x : string) (l : list string) :
  l <> [] -> String.concat sep (x :: l) = x ++ sep ++ String.concat sep l.
Proof. destruct l; [contradiction | reflexivity]. Qed.

Lemma split_from_join (sep : string) :
  sep <> EmptyString ->
  forall (n : nat) (s : string), (String.length s <= n)%nat ->
  forall cur : list ascii,
    String.concat sep (split_from sep s O cur)
    = string_of_list_ascii (rev cur) ++ s.
Proof.
  intros Hsep. induction n as [|n IH]; intros s Hlen cur.
  - destruct s; [|simpl in Hlen; lia]. simpl. now rewrite append_nil_r.
  - destruct s as [|c s]; [simpl; now rewrite append_nil_r|].
    cbn [split_from].
    destruct (String.prefix sep (String c s)) eqn:E.
    + rewrite split_from_skip, concat_cons by apply split_from_pieces.
      rewrite IH by (pose proof (drop_length (String.length sep - 1) s);
                     simpl in Hlen; lia).
      f_equal. change (string_of_list_ascii (rev [])) with EmptyString.
      cbn [String.append].
      etransitivity; [|symmetry; apply (prefix_drop _ _ E)].
      f_equal. destruct sep as [|d sep]; [contradiction|].
      simpl. now rewrite Nat.sub_0_r.
    + rewrite IH by (simpl in Hlen; lia).
      simpl. rewrite string_of_list_ascii_app, append_assoc. reflexivity.
Qed.

(** Joining the pieces of [split] with the separator gives the string
    back. *)
Lemma split_concat (sep s : string) :
  sep <> EmptyString -> String.concat sep (split sep s) = s.
Proof.
  intros Hsep. unfold split.
  now rewrite (split_from_join sep Hsep (String.length s) s (le_n _) []).
Qed.

Lemma split_from_occurrence (sep after before : string) (cur : list ascii) :
  sep <> EmptyString ->
  (1 < List.length (split_from sep (before ++ sep ++ after) O cur))%nat.
Proof.
  intros Hsep. revert cur.
  assert (Hhit : forall c s cur,
             String.prefix sep (String c s) = true ->
             (1 < List.length (split_from sep (String c s) O cur))%nat).
  { intros c s cur E. cbn [split_from]. rewrite E. cbn [List.length].
    pose proof (split_from_pieces sep s (String.length sep - 1) []) as Hp.
    destruct (split_from sep s (String.length sep - 1) []);
      [contradiction | simpl; lia]. }
  induction before as [|c before IH]; intros cur.
  - destruct sep as [|d sep]; [contradiction|].
    change (EmptyString ++ String d sep ++ after)
      with (String d (sep ++ after)).
    apply Hhit. apply (prefix_append (String d sep) after).
  - change (String c before ++ sep ++ after)
      with (String c (before ++ sep ++ after)).
    destruct (String.prefix sep (String c (before ++ sep ++ after))) eqn:E.
    + now apply Hhit.
    + cbn [split_from]. rewrite E. apply IH.
Qed.

(** [split] gives more than one piece exactly when the separator
    occurs in the string. *)
Lemma split_pieces_occurs (sep s : string) :
  sep <> EmptyString ->
  ((1 < List.length (split sep s))%nat <-> Text.occurs sep s).
Proof.
  intros Hsep. split.
  - intros Hlen. pose proof (split_concat sep s Hsep) as Hj.
    destruct (split sep s) as [|x [|y l]]; simpl in Hlen; try lia.
    exists x, (String.concat sep (y :: l)).
    rewrite <- Hj. now apply concat_cons.
  - intros [before [after ->]]. now apply split_from_occurrence.
Qed.

Lemma split_single (sep s : string) :
  sep <> EmptyString -> ~ Text.occurs sep s -> split sep s = [s].
Proof.
  intros Hsep Hno. pose proof (split_concat sep s Hsep) as Hj.
  pose proof (proj1 (split_pieces_occurs sep s Hsep)) as Hlen.
  pose proof (split_from_pieces sep s O []) as Hne. fold (split sep s) in Hne.
  destruct (split sep s) as [|x [|y l]].
  - contradiction.
  - simpl in Hj. now subst.
  - exfalso. apply Hno, Hlen. simpl. lia.
Qed.

Lemma split_leading (sep after : string) :
  sep <> EmptyString -> ~ Text.occurs sep after ->
  split sep (sep ++ after) = [EmptyString; after].
Proof.
  intros Hsep Hno. unfold split.
  destruct sep as [|d sep]; [contradiction|].
  change (String d sep ++ after) with (String d (sep ++ after)).
  cbn [split_from].
  pose proof (prefix_append (String d sep) after) as E.
  change (String d sep ++ after) with (String d (sep ++ after)) in E.
  rewrite E. rewrite split_from_skip.
  replace (String.length (String d sep) - 1)%nat with (String.length sep)
    by (simpl; lia).
  rewrite drop_append. fold (split (String d sep) after).
  now rewrite (split_single _ _ Hsep Hno).
Qed.

(** ** More on the middlewares *)

Lemma substring_all (s : string) :
  String.substring 0 (String.length s) s = s.
Proof. induction s as [|c s IH]; simpl; [reflexivity | now rewrite IH]. Qed.

Lemma slice_Bearer (raw : string) : slice 7 ("Bearer " ++ raw) = raw.
Proof.
  unfold slice. cbn [String.append String.length Nat.sub String.substring].
  rewrite Nat.sub_0_r. apply substring_all.
Qed.

Lemma isBearer_Bearer (raw : string) :
  Authorize.isBearer (Some ("Bearer " ++ raw)) = true.
Proof.
  unfold Authorize.isBearer, startsWith.
  rewrite (prefix_append "Bearer " raw). reflexivity.
Qed.

Lemma isBearer_true (token : option string) :
  Authorize.isBearer token = true <->
  exists t, token = Some t /\ startsWith "Bearer " t = true.
Proof.
  split.
  - destruct token as [t|]; simpl; [|discriminate].
    intros H. apply andb_true_iff in H. exists t. tauto.
  - intros [t [-> H]]. simpl. rewrite H.
    destruct t; [discriminate H | reflexivity].
Qed.

Section MoreMiddlewareFacts.

Context {ServiceToken : Type}.
Context (stringToServiceToken : string -> exn + ServiceToken).

Local Abbreviation authorize := (Authorize.authorize stringToServiceToken).
Local Abbreviation loadToken := (Authorize.loadToken stringToServiceToken).

(** The answer to a raw token: on with the decoded token, or 500 with
    the decoder's message. *)
Local Abbreviation answer raw :=
  (match stringToServiceToken raw with
   | inr t => Authorize.Next (Some t)
   | inl e =>
       Authorize.Responded
         (Res.Json (VNum 500) (ServiceResponse.Build None (message e)))
   end).

(** X1. For an authorization header "Bearer " followed by [raw], both
    middlewares hand the decoder exactly [raw]: they go on with the
    decoded token when the decoder accepts it and answer 500 with the
    decoder's message when it refuses, whatever the other headers. *)
Theorem bearer_header_decodes_the_rest
  (req : Authorize.IASRequest) (raw : string) :
  Authorize.header req "authorization" = Some ("Bearer " ++ raw) ->
  authorize req = answer raw /\ loadToken req = answer raw.
Proof.
  intros H. unfold Authorize.authorize, Authorize.loadToken.
  rewrite H, isBearer_Bearer. cbn [negb Authorize.bearerValue].
  rewrite slice_Bearer. split; reflexivity.
Qed.

(** X2. [authorize] calls [next()] only with a decoded token: the
    request then has an authorization header that starts with
    "Bearer ", and the token handed on is the decoder's result for the
    rest of that header. *)
Theorem authorize_goes_on_only_with_a_token
  (req : Authorize.IASRequest) (authorization : option ServiceToken) :
  authorize req = Authorize.Next authorization ->
  exists h t,
    Authorize.header req "authorization" = Some h
    /\ startsWith "Bearer " h = true
    /\ stringToServiceToken (slice 7 h) = inr t
    /\ authorization = Some t.
Proof.
  unfold Authorize.authorize, Authorize.tryDecode.
  destruct (Authorize.isBearer (Authorize.header req "authorization")) eqn:E;
    cbn [negb]; [|discriminate].
  apply isBearer_true in E. destruct E as [h [Hh Hs]]. rewrite Hh.
  cbn [Authorize.bearerValue].
  destruct (stringToServiceToken (slice 7 h)) as [e|t] eqn:Hd;
    [discriminate|].
  intros H. injection H as <-. now exists h, t.
Qed.

(** X3. With an authorization header that starts with "Bearer ",
    [loadToken] does what [authorize] does: the cookie header is not
    looked at. *)
Theorem loadToken_prefers_the_bearer_header
  (req : Authorize.IASRequest) (h : string) :
  Authorize.header req "authorization" = Some h ->
  startsWith "Bearer " h = true ->
  loadToken req = authorize req.
Proof.
  intros Hh Hs. unfold Authorize.loadToken, Authorize.authorize.
  assert (E : Authorize.isBearer (Authorize.header req "authorization")
              = true) by (apply isBearer_true; now exists h).
  now rewrite E.
Qed.

(** X4. Without a Bearer header, a cookie header in which "token="
    does not occur makes [loadToken] call [next()] with no token,
    whatever the decoder would accept: the request goes on
    unauthenticated. *)
Theorem loadToken_without_token_cookie
  (req : Authorize.IASRequest) (cookie : string) :
  (forall t, Authorize.header req "authorization" = Some t ->
             startsWith "Bearer " t = false) ->
  Authorize.header req "cookie" = Some cookie ->
  ~ Text.occurs "token=" cookie ->
  loadToken req = Authorize.Next None.
Proof.
  intros Hauth Hc Hno. unfold Authorize.loadToken.
  rewrite (isBearer_false _ Hauth), Hc.
  rewrite (split_single "token=" cookie) by (assumption || discriminate).
  reflexivity.
Qed.

(** X5. Without a Bearer header, a cookie header that starts with
    "token=" and holds no second "token=" has everything after it
    decoded as the token, further cookies included: [loadToken] does
    not cut the value at a semicolon. *)
Theorem loadToken_decodes_the_rest_of_the_cookie
  (req : Authorize.IASRequest) (rest : string) :
  (forall t, Authorize.header req "authorization" = Some t ->
             startsWith "Bearer " t = false) ->
  Authorize.header req "cookie" = Some ("token=" ++ rest) ->
  ~ Text.occurs "token=" rest ->
  loadToken req = answer rest.
Proof.
  intros Hauth Hc Hno. unfold Authorize.loadToken.
  rewrite (isBearer_false _ Hauth), Hc.
  rewrite (split_leading "token=" rest) by (assumption || discriminate).
  reflexivity.
Qed.

End MoreMiddlewareFacts.

(** ** More on the controller *)

Lemma fieldsFrom_In (governs : nat -> bool) (user : obj) (ks : list string)
  (i : nat) (f : Res.field) :
  In f (Disclosure.fieldsFrom governs user ks i) ->
  In (Res.name f) ks /\ Res.value f = get user (Res.name f).
Proof.
  revert i. induction ks as [|k ks IH]; intros i; simpl; [contradiction|].
  destruct (governs i); simpl.
  - intros [<-|H]; simpl; [tauto|]. destruct (IH _ H). tauto.
  - intros H. destruct (IH _ H). tauto.
Qed.

Lemma low_bits_of_a_short_user (user : obj) (mask : Z) :
  (List.length (keys user) <= 31)%nat ->
  Disclosure.fieldsWithLowBitSet user mask
  = Disclosure.fieldsWithBitSet user mask.
Proof.
  intros Hlen. apply fieldsFrom_ext. intros j Hj.
  assert (H : Nat.ltb j 31 = true) by (apply Nat.ltb_lt; lia).
  now rewrite H.
Qed.

Section MoreControllerFacts.

Context (authService : AuthenticationService.t).
Context (getUserWithUsernameAndPassword : value -> value -> exn + obj).
Context (hostname : value -> exn + string).

(** X6. [authenticate] never ends with an uncaught exception, and it
    answers 500 exactly when its four parameters are present and the
    token codec threw on the pair of the body's [userId] and level 1;
    the body of that answer is the exception's message with a null
    payload. *)
Theorem authenticate_always_answers (body : obj) :
  (exists r, fst (AuthController.authenticate authService body) = inr r)
  /\ (forall b,
        fst (AuthController.authenticate authService body)
        = inr (Res.Json (VNum 500) b)
        <->
        truthy (get body "serviceName") = true
        /\ truthy (get body "redirectTo") = true
        /\ truthy (get body "permission") = true
        /\ truthy (get body "userId") = true
        /\ exists e,
             AuthenticationService.createToken authService
               (get body "userId") (VNum 1) = inl e
             /\ b = ServiceResponse.Build None (message e)).
Proof.
  unfold AuthController.authenticate, AuthController.createToken,
    AuthController.invalidParams.
  destruct (truthy (get body "serviceName"));
    destruct (truthy (get body "redirectTo"));
    destruct (truthy (get body "permission"));
    destruct (truthy (get body "userId")); cbn [negb orb fst];
    try (split; [eexists; reflexivity|];
         intros b; split; [discriminate | intuition discriminate]).
  destruct (AuthenticationService.createToken authService
              (get body "userId") (VNum 1)) as [e|token]; cbn [fst].
  - split; [eexists; reflexivity|]. intros b. split.
    + intros H. injection H as <-. repeat split. now exists e.
    + intros [_ [_ [_ [_ [e' [He ->]]]]]]. now injection He as <-.
  - split; [eexists; reflexivity|]. intros b. split; [discriminate|].
    intros [_ [_ [_ [_ [e' [He _]]]]]]. discriminate.
Qed.

(** X7. Any redirect [vanillaAuthenticate] sends goes to the body's
    [redirectTo] and sets the cookie "token" to a token the codec
    minted for the body's [userId] and the level [permissionVal] the
    body carries: secure, for seven days, for the host of the
    target. *)
Theorem vanillaAuthenticate_redirect_carries_the_minted_token
  (body : obj) (c : Res.cookie) (headers : list (string * string))
  (location : value) :
  fst (AuthController.vanillaAuthenticate authService hostname body)
  = inr (Res.Redirect c headers location) ->
  AuthenticationService.createToken authService
    (get body "userId") (get body "permissionVal")
  = inr (Res.cookie_value c)
  /\ hostname (get body "redirectTo") = inr (Res.domain c)
  /\ Res.cookie_name c = "token"
  /\ Res.maxAge c = 7 * 24 * 60 * 60 * 1000
  /\ Res.secure c = true
  /\ location = get body "redirectTo"
  /\ snd (AuthController.vanillaAuthenticate authService hostname body)
     = [AuthController.CreateToken (get body "userId")
          (get body "permissionVal")].
Proof.
  unfold AuthController.vanillaAuthenticate, AuthController.createToken,
    AuthController.invalidParams.
  destruct (negb (truthy (get body "permissionVal")) || _ || _ || _);
    cbn [fst]; [discriminate|].
  destruct (AuthenticationService.createToken authService
              (get body "userId") (get body "permissionVal")) as [e|token];
    cbn [fst]; [discriminate|].
  destruct (hostname (get body "redirectTo")) as [e|host]; cbn [fst snd];
    [discriminate|].
  intros H. injection H as <- _ <-. cbn. repeat split.
Qed.

(** X8. [vanillaAuthenticate] ends with an uncaught exception exactly
    when its four parameters are present, the token was minted and
    [redirectTo] does not parse as a URL; the exception is the
    parser's, and the codec has been called by then. *)
Theorem vanillaAuthenticate_throws_exactly_on_unparsable_target
  (body : obj) (e : exn) :
  fst (AuthController.vanillaAuthenticate authService hostname body) = inl e
  <->
  truthy (get body "permissionVal") = true
  /\ truthy (get body "redirectTo") = true
  /\ truthy (get body "permission") = true
  /\ truthy (get body "userId") = true
  /\ (exists token,
        AuthenticationService.createToken authService
          (get body "userId") (get body "permissionVal") = inr token)
  /\ hostname (get body "redirectTo") = inl e.
Proof.
  unfold AuthController.vanillaAuthenticate, AuthController.createToken,
    AuthController.invalidParams.
  destruct (truthy (get body "permissionVal"));
    destruct (truthy (get body "redirectTo"));
    destruct (truthy (get body "permission"));
    destruct (truthy (get body "userId")); cbn [negb orb fst];
    try (split; [discriminate | intuition discriminate]).
  destruct (AuthenticationService.createToken authService
              (get body "userId") (get body "permissionVal")) as [e'|token];
    cbn [fst].
  - split; [discriminate|]. intros [_ [_ [_ [_ [[t Ht] _]]]]]. discriminate.
  - destruct (hostname (get body "redirectTo")) as [e'|host]; cbn [fst].
    + split.
      * intros H. injection H as <-. repeat split. now exists token.
      * intros [_ [_ [_ [_ [_ H]]]]]. now injection H as ->.
    + split; [discriminate|]. intros [_ [_ [_ [_ [_ H]]]]]. discriminate.
Qed.

(** X9. With credentials that resolve to [user] and a service name
    that resolves to [service], [requestPermissions] renders the view
    "gdpr" for the user's id, the service's name and the body's
    redirect target.  The fields it lists are fields of the user with
    the user's values, those whose ordinal index is below 31 and has
    its bit set in the service's [dataPermissions]; for a user of at
    most 31 fields, exactly those whose ordinal bit is set.  The token
    codec is not called. *)
Theorem requestPermissions_discloses_by_the_service_mask
  (body user : obj) (service : Service.t) :
  truthy (get body "serviceName") = true ->
  truthy (get body "redirectTo") = true ->
  truthy (get body "username") = true ->
  truthy (get body "password") = true ->
  getUserWithUsernameAndPassword (get body "username") (get body "password")
  = inr user ->
  AuthenticationService.getService authService (get body "serviceName")
  = inr service ->
  let listed :=
    Disclosure.fieldsWithLowBitSet user (Service.dataPermissions service) in
  AuthController.requestPermissions authService
    getUserWithUsernameAndPassword body
  = (inr (Res.Render "gdpr"
            {| Res.userId := get user "id";
               Res.personalInformation := listed;
               Res.serviceName := Service.serviceName service;
               Res.redirectTo := get body "redirectTo" |}),
     [])
  /\ (forall f, In f listed ->
        In (Res.name f) (keys user)
        /\ Res.value f = get user (Res.name f))
  /\ ((List.length (keys user) <= 31)%nat ->
      listed
      = Disclosure.fieldsWithBitSet user (Service.dataPermissions service)).
Proof.
  intros H1 H2 H3 H4 Hu Hs listed. split; [|split].
  - unfold AuthController.requestPermissions, AuthController.or_else.
    rewrite H1, H2, H3, H4, Hu, Hs. cbn [negb orb].
    now rewrite selectVisibleFields_low.
  - intros f. apply fieldsFrom_In.
  - intros Hlen. now apply low_bits_of_a_short_user.
Qed.

(** X10. [requestPermissions] renders a view only for credentials
    the user lookup accepted and a service the registry knows: the
    fields listed are then fields of that user, chosen by that
    service's mask.  In every other case nothing of a user is sent:
    the handler answers with a JSON body whose payload is null, or it
    ends with an exception out of a [catch], which happens only when
    a lookup failed with an error whose [httpErrorCode] is no status
    that can be sent. *)
Theorem requestPermissions_renders_only_for_verified_credentials
  (body : obj) :
  let outcome :=
    fst (AuthController.requestPermissions authService
           getUserWithUsernameAndPassword body) in
  (forall view locals,
     outcome = inr (Res.Render view locals) ->
     exists user service,
       getUserWithUsernameAndPassword
         (get body "username") (get body "password") = inr user
       /\ AuthenticationService.getService authService
            (get body "serviceName") = inr service
       /\ Res.userId locals = get user "id"
       /\ Res.personalInformation locals
          = Disclosure.fieldsWithLowBitSet user
              (Service.dataPermissions service))
  /\ ((exists view locals, outcome = inr (Res.Render view locals))
      \/ (exists status message,
            outcome
            = inr (Res.Json status (ServiceResponse.Build None message)))
      \/ (exists thrown, outcome = inl thrown))
  /\ (forall thrown,
        outcome = inl thrown ->
        exists e,
          AuthController.sendable (AuthController.httpErrorCode e) = false
          /\ (getUserWithUsernameAndPassword
                (get body "username") (get body "password") = inl e
              \/ exists user,
                   getUserWithUsernameAndPassword
                     (get body "username") (get body "password") = inr user
                   /\ AuthenticationService.getService authService
                        (get body "serviceName") = inl e)).
Proof.
  assert (Hanswer : forall e,
             (exists status message,
                AuthController.answerError e
                = inr (Res.Json status (ServiceResponse.Build None message)))
             \/ (AuthController.sendable (AuthController.httpErrorCode e)
                 = false
                 /\ exists thrown, AuthController.answerError e = inl thrown)).
  { intros e. unfold AuthController.answerError.
    destruct (AuthController.sendable (AuthController.httpErrorCode e)).
    - left. eexists. eexists. reflexivity.
    - right. split; [reflexivity|]. eexists. reflexivity. }
  cbv zeta.
  unfold AuthController.requestPermissions, AuthController.invalidParams.
  destruct (negb (truthy (get body "serviceName")) || _ || _ || _);
    cbn [fst].
  - split; [discriminate|]. split; [|discriminate].
    right. left. eexists. eexists. reflexivity.
  - destruct (getUserWithUsernameAndPassword (get body "username")
                (get body "password")) as [e|user]; cbn [fst].
    + destruct (Hanswer e) as [[status [msg Ha]]|[Hs [thrown Ha]]];
        rewrite Ha.
      * split; [discriminate|]. split; [|discriminate].
        right. left. now exists status, msg.
      * split; [discriminate|]. split.
        -- right. right. now exists thrown.
        -- intros thrown' _. exists e. split; [exact Hs | now left].
    + destruct (AuthenticationService.getService authService
                  (get body "serviceName")) as [e|service]; cbn [fst].
      * destruct (Hanswer e) as [[status [msg Ha]]|[Hs [thrown Ha]]];
          rewrite Ha.
        -- split; [discriminate|]. split; [|discriminate].
           right. left. now exists status, msg.
        -- split; [discriminate|]. split.
           ++ right. right. now exists thrown.
           ++ intros thrown' _. exists e. split; [exact Hs|].
              right. now exists user.
      * split; [|split; [left; eexists; eexists; reflexivity|discriminate]].
        intros view locals H. injection H as _ <-. cbn.
        exists user, service. rewrite selectVisibleFields_low. auto.
Qed.


End MoreControllerFacts.

(** ** More on the permission check *)

Lemma find_allowed_found (allowedEdits : list string) (key : string) :
  not_found (UserValidator.find_allowed allowedEdits key) = false <->
  In key allowedEdits /\ key <> EmptyString.
Proof.
  unfold UserValidator.find_allowed.
  destruct (find (fun a => String.eqb a key) allowedEdits) as [a|] eqn:E;
    simpl.
  - apply find_some in E. destruct E as [Hin Ha].
    apply String.eqb_eq in Ha. subst a. split.
    + intros H. split; [assumption|]. now apply String.eqb_neq.
    + intros [_ Hne]. now apply String.eqb_neq.
  - split; [discriminate|]. intros [Hin _].
    pose proof (find_none _ _ E key Hin) as Hk. cbv beta in Hk.
    now rewrite String.eqb_refl in Hk.
Qed.

Lemma checkKeys_exact (user : obj) (allowedEdits : list string) :
  (UserValidator.checkModifyPermission user allowedEdits = inr tt <->
   forall k, In k (keys user) ->
             (In k allowedEdits /\ k <> EmptyString) \/ k = "id")
  /\ (UserValidator.checkModifyPermission user allowedEdits = inr tt
      \/ UserValidator.checkModifyPermission user allowedEdits
         = inl (ServiceError 403 "Forbidden modify action")).
Proof.
  unfold UserValidator.checkModifyPermission.
  induction (keys user) as [|key ks [IH1 IH2]]; cbn [UserValidator.checkKeys].
  - split; [|now left]. split; [intros _ k []|reflexivity].
  - destruct (not_found (UserValidator.find_allowed allowedEdits key))
      eqn:E; cbn [andb].
    + destruct (String.eqb_spec key "id") as [->|Hid]; cbn [negb].
      * split; [|exact IH2]. rewrite IH1. split.
        -- intros H k [<-|Hk]; [now right | now apply H].
        -- intros H k Hk. apply H. now right.
      * split; [|now right]. split; [discriminate|].
        intros H. exfalso. destruct (H key (or_introl eq_refl)) as [Hk|Hk];
          [|contradiction].
        apply find_allowed_found in Hk. congruence.
    + split; [|exact IH2]. rewrite IH1.
      apply find_allowed_found in E. split.
      * intros H k [<-|Hk]; [now left | now apply H].
      * intros H k Hk. apply H. now right.
Qed.

(** X11. For any allow-list, [checkModifyPermission] returns exactly
    when every key of the object is [id] or is a non-empty name of the
    list, and throws the 403 "Forbidden modify action" otherwise: an
    empty name in the list permits nothing, since [find] then returns
    a falsy string. *)
Theorem checkModifyPermission_exact (user : obj) (allowedEdits : list string) :
  (UserValidator.checkModifyPermission user allowedEdits = inr tt <->
   forall k, In k (keys user) ->
             (In k allowedEdits /\ k <> EmptyString) \/ k = "id")
  /\ (UserValidator.checkModifyPermission user allowedEdits = inr tt
      \/ UserValidator.checkModifyPermission user allowedEdits
         = inl (ServiceError 403 "Forbidden modify action")).
Proof. apply checkKeys_exact. Qed.

(** ** More on the validator *)

Lemma get_delete_same (k : string) (o : obj) : get (delete k o) k = VUndefined.
Proof.
  induction o as [|[k0 v] o IH]; simpl; [reflexivity|].
  destruct (String.eqb k0 k) eqn:E; simpl; [exact IH|]. now rewrite E.
Qed.

Lemma truthy_present (o : obj) (k : string) :
  truthy (get o k) = true -> In k (keys o).
Proof.
  induction o as [|[k0 v] o IH]; simpl; [discriminate|].
  destruct (String.eqb k0 k) eqn:E.
  - apply String.eqb_eq in E. now left.
  - intros H. right. now apply IH.
Qed.

(** Writing a property the object has keeps its keys as they are. *)
Lemma keys_set_present (k : string) (v : value) (o : obj) :
  In k (keys o) -> keys (set k v o) = keys o.
Proof.
  induction o as [|[k0 v0] o IH]; simpl; [contradiction|].
  destruct (String.eqb k0 k) eqn:E; simpl.
  - apply String.eqb_eq in E. now subst.
  - intros [H|H]; [apply String.eqb_neq in E; contradiction|].
    now rewrite IH.
Qed.

Lemma get_filter_keys (f : string -> bool) (o : obj) (k : string) :
  get (filter (fun p => f (fst p)) o) k
  = if f k then get o k else VUndefined.
Proof.
  induction o as [|[k0 v] o IH]; simpl; [now destruct (f k)|].
  destruct (String.eqb k0 k) eqn:E.
  - apply String.eqb_eq in E. subst k0.
    destruct (f k) eqn:Ef; simpl.
    + now rewrite String.eqb_refl.
    + rewrite IH. now rewrite ?Ef.
  - destruct (f k0); simpl; [rewrite E|]; exact IH.
Qed.

Lemma In_keys_filter (f : string -> bool) (o : obj) (k : string) :
  In k (keys (filter (fun p => f (fst p)) o)) <-> In k (keys o) /\ f k = true.
Proof.
  unfold keys. rewrite !in_map_iff. split.
  - intros [[k0 v] [Hk Hin]]. simpl in Hk. subst k0.
    apply filter_In in Hin. simpl in Hin. destruct Hin as [Hin Hf].
    split; [|exact Hf]. now exists (k, v).
  - intros [[[k0 v] [Hk Hin]] Hf]. simpl in Hk. subst k0.
    exists (k, v). split; [reflexivity|]. apply filter_In. now split.
Qed.

Section MoreValidatorFacts.

Context (userService : UserService.t).
Context (Jasenvirkailija Yllapitaja : string).
Context (validator_equals : value -> value -> exn + bool).
Context (validator_isEmail : value -> exn + bool).
Context (validator_isLength : value -> Z -> Z -> exn + bool).
Context (stringToBoolean : value -> value).
Context (trim : string -> string).
Context (Kayttaja : string).

Local Abbreviation authorizeUpdate :=
  (UserValidator.authorizeUpdate userService Jasenvirkailija Yllapitaja).
Local Abbreviation validateUpdate :=
  (UserValidator.validateUpdate userService Jasenvirkailija Yllapitaja
     validator_equals validator_isEmail validator_isLength
     stringToBoolean trim).
Local Abbreviation checkFormat :=
  (UserValidator.checkFormat userService validator_equals
     validator_isEmail validator_isLength stringToBoolean trim).
Local Abbreviation validateCreate :=
  (UserValidator.validateCreate userService validator_equals
     validator_isEmail validator_isLength stringToBoolean trim Kayttaja).
Local Abbreviation usernameFree :=
  (UserValidator.checkUsernameAvailability userService trim).
Local Abbreviation emailFree :=
  (UserValidator.checkEmailAvailability userService trim).
Local Abbreviation emailValid :=
  (UserValidator.checkEmailValidity validator_isEmail validator_isLength).

(** The payload a creation ends with once its lookups have passed. *)
Local Abbreviation created p :=
  (let p3 := set "deleted" (VBool false)
               (set "role" (VStr Kayttaja)
                  (set "membership" (VStr "ei-jasen") (delete "id" p))) in
   set "isTKTL" (stringToBoolean (get p3 "isTKTL")) p3).

(** [validateCreate], step by step. *)
Lemma validateCreate_run (p : obj) :
  validateCreate p
  = let p0 := delete "id" p in
    if negb (truthy (get p0 "username"))
       || negb (truthy (get p0 "name"))
       || negb (truthy (get p0 "screenName"))
       || negb (truthy (get p0 "email"))
       || negb (truthy (get p0 "residence"))
       || negb (truthy (get p0 "phone"))
       || negb (truthy (get p0 "password1"))
       || negb (truthy (get p0 "password2"))
    then (inl (ServiceError 400 "Missing required information"), p0)
    else
      match usernameFree p0 with
      | inl e => (inl e, p0)
      | inr _ =>
          match emailValid (get p0 "email") with
          | inl e => (inl e, p0)
          | inr valid =>
              if negb valid
              then (inl (ServiceError 400 "Malformed email"), p0)
              else
                match emailFree p0 with
                | inl e => (inl e, p0)
                | inr _ =>
                    let q := created p in
                    match validator_equals (get q "password1")
                            (get q "password2") with
                    | inl e => (inl e, q)
                    | inr same =>
                        if negb same
                        then (inl (ServiceError 400 "Passwords do not match"),
                              q)
                        else (inr tt, q)
                    end
                end
          end
      end.
Proof.
  unfold UserValidator.validateCreate, bind, modify, read, lift, ret, throw.
  cbv zeta.
  match goal with
  | |- context [if ?c then (fun s : obj => (inl (ServiceError 400 _), s))
                else _] => destruct c; [reflexivity|]
  end.
  destruct (usernameFree (delete "id" p)); [reflexivity|].
  destruct (emailValid (get (delete "id" p) "email")) as [e|valid];
    [reflexivity|].
  destruct (negb valid); [reflexivity|].
  destruct (emailFree (delete "id" p)); [reflexivity|].
  destruct (validator_equals _ _) as [e|same]; [reflexivity|].
  now destruct (negb same).
Qed.

(** [checkFormat], step by step. *)
Lemma checkFormat_run (p : obj) :
  checkFormat p
  = match usernameFree p with
    | inl e => (inl e, p)
    | inr _ =>
        match emailFree p with
        | inl e => (inl e, p)
        | inr _ =>
            match (if truthy (get p "email")
                   then emailValid (get p "email") else inr true) with
            | inl e => (inl e, p)
            | inr valid =>
                if negb valid
                then (inl (ServiceError 400 "Malformed email"), p)
                else
                  let p1 :=
                    if truthy (get p "isTKTL")
                    then set "isTKTL" (stringToBoolean (get p "isTKTL")) p
                    else p in
                  let p2 :=
                    if truthy (get p1 "isHYYMember")
                    then set "isHYYMember"
                           (stringToBoolean (get p1 "isHYYMember")) p1
                    else p1 in
                  if truthy (get p2 "password1")
                     && truthy (get p2 "password2")
                  then
                    match validator_equals (get p2 "password1")
                            (get p2 "password2") with
                    | inl e => (inl e, p2)
                    | inr same =>
                        if negb same
                        then (inl (ServiceError 400
                                     "Passwords do not match"), p2)
                        else (inr tt, p2)
                    end
                  else (inr tt, p2)
            end
        end
    end.
Proof.
  unfold UserValidator.checkFormat, bind, modify, read, lift, ret, throw.
  cbv zeta.
  destruct (usernameFree p); [reflexivity|].
  destruct (emailFree p); [reflexivity|].
  destruct (truthy (get p "email")).
  - destruct (emailValid (get p "email")) as [e|valid]; [reflexivity|].
    destruct (negb valid); [reflexivity|].
    destruct (truthy (get p "isTKTL"));
      match goal with
      | |- context [truthy (get ?q "isHYYMember")] =>
          destruct (truthy (get q "isHYYMember"))
      end;
      match goal with
      | |- context [truthy (get ?q "password1") && _] =>
          destruct (truthy (get q "password1") && truthy (get q "password2"))
      end; try reflexivity;
      destruct (validator_equals _ _) as [e|same]; try reflexivity;
      now destruct (negb same).
  - cbn [negb].
    destruct (truthy (get p "isTKTL"));
      match goal with
      | |- context [truthy (get ?q "isHYYMember")] =>
          destruct (truthy (get q "isHYYMember"))
      end;
      match goal with
      | |- context [truthy (get ?q "password1") && _] =>
          destruct (truthy (get q "password1") && truthy (get q "password2"))
      end; try reflexivity;
      destruct (validator_equals _ _) as [e|same]; try reflexivity;
      now destruct (negb same).
Qed.

(** What the availability and validity checks returning mean. *)
Lemma usernameFree_passed (p : obj) :
  usernameFree p = inr tt ->
  truthy (get p "username") = true ->
  exists u, get p "username" = VStr u
            /\ UserService.checkUsernameAvailability userService (trim u)
               = inr true.
Proof.
  unfold UserValidator.checkUsernameAvailability. intros H Ht.
  rewrite Ht in H. destruct (get p "username") as [| |b|n|u|l];
    try discriminate H.
  exists u. split; [reflexivity|]. cbn in H.
  destruct (UserService.checkUsernameAvailability userService (trim u))
    as [e|[|]]; cbn in H; congruence.
Qed.

Lemma emailFree_passed (p : obj) :
  emailFree p = inr tt ->
  truthy (get p "email") = true ->
  exists m, get p "email" = VStr m
            /\ UserService.checkEmailAvailability userService (trim m)
               = inr true.
Proof.
  unfold UserValidator.checkEmailAvailability. intros H Ht.
  rewrite Ht in H. destruct (get p "email") as [| |b|n|m|l];
    try discriminate H.
  exists m. split; [reflexivity|]. cbn in H.
  destruct (UserService.checkEmailAvailability userService (trim m))
    as [e|[|]]; cbn in H; congruence.
Qed.

Lemma emailValid_passed (v : value) :
  emailValid v = inr true ->
  truthy v = true
  /\ validator_isEmail v = inr true
  /\ validator_isLength v 255 1 = inr true.
Proof.
  unfold UserValidator.checkEmailValidity. intros H.
  destruct (truthy v); cbn in H; [|discriminate].
  destruct (validator_isEmail v) as [e|[|]]; cbn in H; try discriminate.
  destruct (validator_isLength v 255 1) as [e|[|]]; cbn in H;
    try discriminate.
  auto.
Qed.

Lemma get_created (p : obj) (k : string) :
  k <> "membership" -> k <> "role" -> k <> "deleted" -> k <> "isTKTL" ->
  get (created p) k = get (delete "id" p) k.
Proof.
  intros H1 H2 H3 H4. cbv zeta.
  rewrite !get_set_other by congruence. reflexivity.
Qed.

Lemma validateCreate_success (p : obj) :
  fst (validateCreate p) = inr tt ->
  let p0 := delete "id" p in
  snd (validateCreate p) = created p
  /\ truthy (get p0 "username") = true
  /\ truthy (get p0 "name") = true
  /\ truthy (get p0 "screenName") = true
  /\ truthy (get p0 "email") = true
  /\ truthy (get p0 "residence") = true
  /\ truthy (get p0 "phone") = true
  /\ truthy (get p0 "password1") = true
  /\ truthy (get p0 "password2") = true
  /\ usernameFree p0 = inr tt
  /\ emailValid (get p0 "email") = inr true
  /\ emailFree p0 = inr tt
  /\ validator_equals (get p0 "password1") (get p0 "password2") = inr true.
Proof.
  rewrite validateCreate_run. cbv zeta.
  rewrite !(get_created p) by discriminate.
  destruct (truthy (get (delete "id" p) "username")); [|discriminate].
  destruct (truthy (get (delete "id" p) "name")); [|discriminate].
  destruct (truthy (get (delete "id" p) "screenName")); [|discriminate].
  destruct (truthy (get (delete "id" p) "email")); [|discriminate].
  destruct (truthy (get (delete "id" p) "residence")); [|discriminate].
  destruct (truthy (get (delete "id" p) "phone")); [|discriminate].
  destruct (truthy (get (delete "id" p) "password1")); [|discriminate].
  destruct (truthy (get (delete "id" p) "password2")); [|discriminate].
  cbn [negb orb].
  destruct (usernameFree (delete "id" p)) as [e|[]]; [discriminate|].
  destruct (emailValid (get (delete "id" p) "email")) as [e|[|]];
    cbn [negb]; try discriminate.
  destruct (emailFree (delete "id" p)) as [e|[]]; [discriminate|].
  destruct (validator_equals _ _) as [e|[|]]; cbn [negb fst snd];
    try discriminate.
  intros _. repeat split; reflexivity.
Qed.

(** X12. When [validateCreate] returns, the payload it leaves carries
    the role Kayttaja, the membership "ei-jasen", [deleted] false and
    no [id], whatever the caller sent for them; [isTKTL] is the
    caller's value passed through [stringToBoolean], and every other
    field is as the caller sent it. *)
Theorem validateCreate_decides_role_and_membership (p : obj) :
  fst (validateCreate p) = inr tt ->
  let q := snd (validateCreate p) in
  get q "role" = VStr Kayttaja
  /\ get q "membership" = VStr "ei-jasen"
  /\ get q "deleted" = VBool false
  /\ get q "id" = VUndefined
  /\ get q "isTKTL" = stringToBoolean (get p "isTKTL")
  /\ (forall k, k <> "id" -> k <> "role" -> k <> "membership" ->
                k <> "deleted" -> k <> "isTKTL" -> get q k = get p k).
Proof.
  intros H q. destruct (validateCreate_success p H) as [Hq _].
  unfold q. rewrite Hq. cbv zeta. repeat split.
  - rewrite !get_set_other by discriminate. apply get_set_same.
  - rewrite !get_set_other by discriminate. apply get_set_same.
  - rewrite !get_set_other by discriminate. apply get_set_same.
  - rewrite !get_set_other by discriminate. apply get_delete_same.
  - rewrite get_set_same. rewrite !get_set_other by discriminate.
    now rewrite get_delete_other by discriminate.
  - intros k H1 H2 H3 H4 H5. rewrite !get_set_other by congruence.
    apply get_delete_other. congruence.
Qed.

(** X13. When one of username, name, screenName, email, residence,
    phone, password1, password2 is missing from the payload (absent
    or falsy), [validateCreate] throws 400 "Missing required
    information", whatever the user service and the validators would
    answer, and the payload has lost its [id] and is otherwise
    untouched. *)
Theorem validateCreate_missing_information (p : obj) (k : string) :
  In k ["username"; "name"; "screenName"; "email"; "residence"; "phone";
        "password1"; "password2"] ->
  truthy (get p k) = false ->
  validateCreate p
  = (inl (ServiceError 400 "Missing required information"), delete "id" p).
Proof.
  intros Hk Hf. rewrite validateCreate_run. cbv zeta.
  assert (H : truthy (get (delete "id" p) k) = false).
  { rewrite get_delete_other; [exact Hf|].
    intros <-. simpl in Hk.
    repeat (destruct Hk as [Hk|Hk]; [discriminate Hk|]). exact Hk. }
  simpl in Hk.
  destruct Hk as [<-|[<-|[<-|[<-|[<-|[<-|[<-|[<-|[]]]]]]]]];
    rewrite H; cbn [negb]; now rewrite ?orb_true_r.
Qed.

(** X14. [validateCreate] returns only for a payload whose username
    and e-mail are strings that the user service reported free (asked
    with the trimmed string), whose e-mail passed [isEmail] and
    [isLength] with the bounds 1 and 255, and whose two passwords
    [validator.equals] found equal. *)
Theorem validateCreate_returns_only_after_every_check (p : obj) :
  fst (validateCreate p) = inr tt ->
  (exists u, get p "username" = VStr u
             /\ UserService.checkUsernameAvailability userService (trim u)
                = inr true)
  /\ (exists m, get p "email" = VStr m
                /\ UserService.checkEmailAvailability userService (trim m)
                   = inr true
                /\ validator_isEmail (VStr m) = inr true
                /\ validator_isLength (VStr m) 255 1 = inr true)
  /\ validator_equals (get p "password1") (get p "password2") = inr true.
Proof.
  intros H. pose proof (validateCreate_success p H) as Hs. cbv zeta in Hs.
  rewrite !(get_delete_other "id") in Hs by discriminate.
  destruct Hs as [_ [Hu [_ [_ [Hm [_ [_ [_ [_ [Huf [Hv [Hmf He]]]]]]]]]]]].
  split; [|split; [|exact He]].
  - destruct (usernameFree_passed _ Huf) as [u [Hgu Hau]].
    + now rewrite get_delete_other by discriminate.
    + rewrite get_delete_other in Hgu by discriminate. now exists u.
  - destruct (emailFree_passed _ Hmf) as [m [Hgm Ham]].
    + now rewrite get_delete_other by discriminate.
    + rewrite get_delete_other in Hgm by discriminate.
      rewrite Hgm in Hv. destruct (emailValid_passed _ Hv) as [_ [H1 H2]].
      now exists m.
Qed.

(** The two flags [checkFormat] may rewrite. *)
Local Abbreviation flagged p :=
  (let p1 :=
     if truthy (get p "isTKTL")
     then set "isTKTL" (stringToBoolean (get p "isTKTL")) p else p in
   if truthy (get p1 "isHYYMember")
   then set "isHYYMember" (stringToBoolean (get p1 "isHYYMember")) p1
   else p1).

Lemma keys_flagged (p : obj) : keys (flagged p) = keys p.
Proof.
  cbv zeta.
  assert (H1 : keys (if truthy (get p "isTKTL")
                     then set "isTKTL" (stringToBoolean (get p "isTKTL")) p
                     else p) = keys p).
  { destruct (truthy (get p "isTKTL")) eqn:E; [|reflexivity].
    now apply keys_set_present, truthy_present. }
  match goal with
  | |- context [truthy (get ?q "isHYYMember")] =>
      destruct (truthy (get q "isHYYMember")) eqn:E2; [|exact H1];
      rewrite keys_set_present; [exact H1 | now apply truthy_present]
  end.
Qed.

Lemma get_flagged (p : obj) (k : string) :
  k <> "isTKTL" -> k <> "isHYYMember" -> get (flagged p) k = get p k.
Proof.
  intros H1 H2. cbv zeta.
  match goal with
  | |- context [truthy (get ?q "isHYYMember")] =>
      destruct (truthy (get q "isHYYMember"))
  end; rewrite ?get_set_other by congruence;
    destruct (truthy (get p "isTKTL"));
    rewrite ?get_set_other by congruence; reflexivity.
Qed.

(** Whatever its outcome, [checkFormat] leaves the payload as it was
    or with its flags rewritten. *)
Lemma checkFormat_payload (p : obj) :
  snd (checkFormat p) = p \/ snd (checkFormat p) = flagged p.
Proof.
  rewrite checkFormat_run. cbv zeta.
  destruct (usernameFree p); [now left|].
  destruct (emailFree p); [now left|].
  destruct (if truthy (get p "email") then emailValid (get p "email")
            else inr true) as [e|valid]; [now left|].
  destruct (negb valid); [now left|].
  match goal with
  | |- context [if ?c then match validator_equals ?a ?b with _ => _ end
                else _] =>
      destruct c; [destruct (validator_equals a b) as [e|same];
                   [|destruct (negb same)]|]
  end; now right.
Qed.

Lemma checkFormat_success (p : obj) :
  fst (checkFormat p) = inr tt ->
  snd (checkFormat p) = flagged p
  /\ usernameFree p = inr tt
  /\ emailFree p = inr tt
  /\ (truthy (get p "email") = true -> emailValid (get p "email") = inr true)
  /\ (truthy (get (flagged p) "password1") = true ->
      truthy (get (flagged p) "password2") = true ->
      validator_equals (get (flagged p) "password1")
        (get (flagged p) "password2") = inr true).
Proof.
  rewrite checkFormat_run. cbv zeta.
  destruct (usernameFree p) as [e|[]]; [discriminate|].
  destruct (emailFree p) as [e|[]]; [discriminate|].
  destruct (truthy (get p "email")).
  - destruct (emailValid (get p "email")) as [e|[|]]; cbn [negb];
      try discriminate.
    match goal with
    | |- context [if ?c then match validator_equals ?a ?b with _ => _ end
                  else _] =>
        destruct c eqn:Ec;
          [destruct (validator_equals a b) as [e|[|]] eqn:Ee;
           cbn [negb fst snd]; try discriminate|]
    end; intros _; repeat split; try reflexivity.
    intros H1 H2. rewrite H1, H2 in Ec. discriminate.
  - cbn [negb].
    match goal with
    | |- context [if ?c then match validator_equals ?a ?b with _ => _ end
                  else _] =>
        destruct c eqn:Ec;
          [destruct (validator_equals a b) as [e|[|]] eqn:Ee;
           cbn [negb fst snd]; try discriminate|]
    end; intros _; repeat split; try reflexivity; try discriminate.
    intros H1 H2. rewrite H1, H2 in Ec. discriminate.
Qed.

(** The payload the permission stage leaves: the payload without its
    no-op entries, with or without the [id] written on it. *)
Lemma authorizeUpdate_payload (userId : Z) (modifier newUser oldUser : obj) :
  UserService.fetchUser userService userId = inr oldUser ->
  let w := withoutNoOps oldUser newUser in
  snd (authorizeUpdate userId modifier newUser) = w
  \/ snd (authorizeUpdate userId modifier newUser)
     = set "id" (VNum userId) w.
Proof.
  intros Hfetch w.
  rewrite (authorizeUpdate_run _ _ _ _ _ _ _ Hfetch). fold w.
  unfold UserValidator.checkTier, bind, modify, read, lift, throw.
  destruct (strict_eq (VNum userId) (get modifier "id")); [now right|].
  cbn [negb andb].
  destruct (strict_eq (get modifier "role") (VStr Jasenvirkailija));
    [now left|].
  destruct (strict_eq (get modifier "role") (VStr Yllapitaja)); now left.
Qed.

(** The outcome of the whole validation, by the outcome of its
    permission stage. *)
Lemma validateUpdate_stages (userId : Z) (modifier newUser : obj) :
  (exists e, fst (authorizeUpdate userId modifier newUser) = inl e
             /\ validateUpdate userId modifier newUser
                = (inl e, snd (authorizeUpdate userId modifier newUser)))
  \/ (fst (authorizeUpdate userId modifier newUser) = inr tt
      /\ validateUpdate userId modifier newUser
         = checkFormat (snd (authorizeUpdate userId modifier newUser))).
Proof.
  destruct (fst (authorizeUpdate userId modifier newUser)) as [e|[]] eqn:E.
  - left. exists e. split; [reflexivity|].
    now apply validateUpdate_rejected.
  - right. split; [reflexivity|]. now apply validateUpdate_accepted.
Qed.

(** X15. When [validateUpdate] returns under one of the three tiers,
    every field left in the payload, which is what the caller goes on
    to persist, is in the tier's allowed set or is [id]. *)
Theorem validateUpdate_leaves_only_permitted_fields
  (userId : Z) (modifier newUser oldUser : obj) (allowed : list string) :
  UserService.fetchUser userService userId = inr oldUser ->
  tier Jasenvirkailija Yllapitaja userId modifier allowed ->
  fst (validateUpdate userId modifier newUser) = inr tt ->
  forall k, In k (keys (snd (validateUpdate userId modifier newUser))) ->
            In k allowed \/ k = "id".
Proof.
  intros Hfetch Htier Hok k Hk.
  destruct (validateUpdate_stages userId modifier newUser)
    as [[e [_ Hv]]|[Ha Hv]]; rewrite Hv in Hok, Hk;
    [discriminate Hok|].
  assert (Hkeys : In k (keys (snd (authorizeUpdate userId modifier newUser)))).
  { destruct (checkFormat_payload
                (snd (authorizeUpdate userId modifier newUser))) as [Hp|Hp];
      rewrite Hp in Hk; [exact Hk | now rewrite keys_flagged in Hk]. }
  clear Hk Hv Hok.
  rewrite (authorizeUpdate_run _ _ _ _ _ _ _ Hfetch) in Ha, Hkeys.
  assert (Hchk : forall p l,
             UserValidator.checkModifyPermission p l = inr tt ->
             In k (keys p) -> In k l \/ k = "id").
  { intros p l Hp Hin.
    destruct (proj1 (proj1 (checkKeys_exact p l)) Hp k Hin);
      tauto. }
  destruct Htier as [Hid|Hid Hrole|Hid Hrole].
  - rewrite (checkTier_self _ _ _ _ _ Hid) in Ha, Hkeys.
    apply (Hchk _ _ Ha Hkeys).
  - rewrite (checkTier_staff _ _ _ _ _ Hid Hrole) in Ha, Hkeys.
    apply (Hchk _ _ Ha Hkeys).
  - destruct (String.eqb Jasenvirkailija Yllapitaja) eqn:E.
    + apply String.eqb_eq in E.
      rewrite (checkTier_staff _ _ _ _ _ Hid) in Ha, Hkeys by congruence.
      destruct (Hchk _ _ Ha Hkeys) as [H|H]; [|now right].
      left. apply (incl_appl _ (incl_refl _) _ H).
    + apply String.eqb_neq in E.
      rewrite (checkTier_admin _ _ _ _ _ Hid Hrole E) in Ha, Hkeys.
      apply (Hchk _ _ Ha Hkeys).
Qed.

(** X16. [validateUpdate] returns only when what the payload still
    proposes was checked: a truthy username or e-mail is a string the
    user service reported free (asked with the trimmed string), a
    truthy e-mail passed [isEmail] and [isLength], and two truthy
    passwords were found equal by [validator.equals].  A password
    that comes alone is compared with nothing. *)
Theorem validateUpdate_returns_only_after_its_checks
  (userId : Z) (modifier newUser : obj) :
  fst (validateUpdate userId modifier newUser) = inr tt ->
  let q := snd (validateUpdate userId modifier newUser) in
  (truthy (get q "username") = true ->
   exists u, get q "username" = VStr u
             /\ UserService.checkUsernameAvailability userService (trim u)
                = inr true)
  /\ (truthy (get q "email") = true ->
      exists m, get q "email" = VStr m
                /\ UserService.checkEmailAvailability userService (trim m)
                   = inr true
                /\ validator_isEmail (VStr m) = inr true
                /\ validator_isLength (VStr m) 255 1 = inr true)
  /\ (truthy (get q "password1") = true ->
      truthy (get q "password2") = true ->
      validator_equals (get q "password1") (get q "password2") = inr true).
Proof.
  intros Hok q. unfold q.
  destruct (validateUpdate_stages userId modifier newUser)
    as [[e [_ Hv]]|[_ Hv]]; rewrite Hv in Hok |- *; [discriminate Hok|].
  set (left := snd (authorizeUpdate userId modifier newUser)) in *.
  destruct (checkFormat_success left Hok) as [Hq [Hu [Hm [Hval Hpw]]]].
  rewrite Hq. split; [|split].
  - rewrite get_flagged by discriminate. intros Ht.
    now apply usernameFree_passed.
  - rewrite get_flagged by discriminate. intros Ht.
    destruct (emailFree_passed _ Hm Ht) as [m [Hgm Ham]].
    specialize (Hval Ht). rewrite Hgm in Hval.
    destruct (emailValid_passed _ Hval) as [_ [H1 H2]]. now exists m.
  - exact Hpw.
Qed.

(** X17. Whatever its outcome, [validateUpdate] adds no field to the
    payload but [id], and apart from [id] and the two flags [isTKTL]
    and [isHYYMember] every field it leaves has the value the caller
    sent. *)
Theorem validateUpdate_keeps_to_the_payload
  (userId : Z) (modifier newUser : obj) (k : string) :
  let q := snd (validateUpdate userId modifier newUser) in
  (In k (keys q) -> k = "id" \/ In k (keys newUser))
  /\ (In k (keys q) -> k <> "id" -> k <> "isTKTL" -> k <> "isHYYMember" ->
      get q k = get newUser k).
Proof.
  intros q.
  destruct (UserService.fetchUser userService userId) as [e|oldUser] eqn:Hf.
  - assert (Hq : q = newUser).
    { unfold q, UserValidator.validateUpdate, UserValidator.authorizeUpdate,
        bind, lift. now rewrite Hf. }
    rewrite Hq. split; [now right | reflexivity].
  - set (left := snd (authorizeUpdate userId modifier newUser)).
    assert (Hkeys : keys q = keys left).
    { unfold q.
      destruct (validateUpdate_stages userId modifier newUser)
        as [[e [_ Hv]]|[_ Hv]]; rewrite Hv; [reflexivity|].
      destruct (checkFormat_payload left) as [Hp|Hp]; fold left; rewrite Hp;
        [reflexivity | apply keys_flagged]. }
    assert (Hget : k <> "isTKTL" -> k <> "isHYYMember" ->
                   get q k = get left k).
    { intros H1 H2. unfold q.
      destruct (validateUpdate_stages userId modifier newUser)
        as [[e [_ Hv]]|[_ Hv]]; rewrite Hv; [reflexivity|].
      destruct (checkFormat_payload left) as [Hp|Hp]; fold left; rewrite Hp;
        [reflexivity | now apply get_flagged]. }
    assert (Hleft : In k (keys left) ->
                    (k = "id" \/ In k (keys newUser))
                    /\ (k <> "id" -> get left k = get newUser k)).
    { pose proof (authorizeUpdate_payload userId modifier newUser oldUser Hf)
        as Hp. cbv zeta in Hp. fold left in Hp.
      assert (Hw : In k (keys (withoutNoOps oldUser newUser)) ->
                   In k (keys newUser)
                   /\ get (withoutNoOps oldUser newUser) k = get newUser k).
      { unfold withoutNoOps. intros Hin.
        apply (In_keys_filter
                 (fun k => negb (sameAsStored oldUser newUser k))) in Hin.
        destruct Hin as [Hin Hf'].
        split; [exact Hin|].
        rewrite (get_filter_keys
                   (fun k => negb (sameAsStored oldUser newUser k))).
        now rewrite Hf'. }
      destruct Hp as [Hp|Hp]; rewrite Hp.
      - intros Hin. destruct (Hw Hin). tauto.
      - intros Hin. apply In_keys_set in Hin.
        destruct Hin as [->|Hin]; [split; [now left | congruence]|].
        destruct (Hw Hin) as [H1 H2]. split; [now right|].
        intros Hid. rewrite get_set_other by congruence. exact H2. }
    rewrite Hkeys. split.
    + intros Hin. now apply Hleft.
    + intros Hin H1 H2 H3. rewrite Hget by assumption.
      now apply Hleft.
Qed.

End MoreValidatorFacts.

(** ** The payment table *)

(** X18. [save] never hands the table a truthy [id]: such an id is
    deleted from the caller's entity, which is otherwise inserted as
    it came.  An entity whose id is falsy, 0 for one, is inserted
    unchanged, id included. *)
Theorem save_inserts_no_truthy_id (insert : obj -> exn + list Z)
  (entity : obj) :
  let row := snd (PaymentDao.save insert entity) in
  fst (PaymentDao.save insert entity) = insert row
  /\ truthy (get row "id") = false
  /\ (forall k, k <> "id" -> get row k = get entity k)
  /\ (truthy (get entity "id") = false -> row = entity).
Proof.
  unfold PaymentDao.save. cbv zeta. cbn [fst snd].
  destruct (truthy (get entity "id")) eqn:E.
  - split; [reflexivity|]. split; [now rewrite get_delete_same|].
    split; [|discriminate].
    intros k Hk. apply get_delete_other. congruence.
  - auto.
Qed.

(** ** The further properties at work on the sample data *)

Lemma token_not_in (s : string) :
  List.length (split "token=" s) = 1%nat -> ~ Text.occurs "token=" s.
Proof.
  intros Hlen Hocc.
  apply (split_pieces_occurs "token=" s) in Hocc; [lia | discriminate].
Qed.

(** A Bearer header with a token the codec knows. *)
Lemma X1_witness_bearer_token_decoded :
  Authorize.authorize Sample.stringToServiceToken (Sample.bearer "5.7")
  = Authorize.Next
      (Some {| Sample.subjectId := 5; Sample.permissionLevel := 7 |}).
Proof.
  destruct (bearer_header_decodes_the_rest Sample.stringToServiceToken
              (Sample.bearer "5.7") "5.7" eq_refl) as [H _].
  rewrite H. reflexivity.
Defined.

Lemma X2_witness_token_behind_next :
  exists h t,
    Authorize.header (Sample.bearer "5.1") "authorization" = Some h
    /\ startsWith "Bearer " h = true
    /\ Sample.stringToServiceToken (slice 7 h) = inr t
    /\ Some {| Sample.subjectId := 5; Sample.permissionLevel := 1 |}
       = Some t.
Proof.
  apply (authorize_goes_on_only_with_a_token Sample.stringToServiceToken
           (Sample.bearer "5.1")
           (Some {| Sample.subjectId := 5; Sample.permissionLevel := 1 |})).
  reflexivity.
Defined.

(** A valid Bearer header beside a forged token cookie. *)
Lemma X3_witness_header_beats_cookie :
  Authorize.loadToken Sample.stringToServiceToken
    {| Authorize.headers :=
         [("authorization", "Bearer 5.1"); ("cookie", "token=forged")] |}
  = Authorize.authorize Sample.stringToServiceToken
      {| Authorize.headers :=
           [("authorization", "Bearer 5.1"); ("cookie", "token=forged")] |}.
Proof.
  apply (loadToken_prefers_the_bearer_header Sample.stringToServiceToken
           {| Authorize.headers :=
                [("authorization", "Bearer 5.1");
                 ("cookie", "token=forged")] |}
           "Bearer 5.1"); reflexivity.
Defined.

Lemma X4_witness_cookie_without_token :
  Authorize.loadToken Sample.stringToServiceToken
    (Sample.withCookie "lang=fi; theme=dark")
  = Authorize.Next None.
Proof.
  apply (loadToken_without_token_cookie Sample.stringToServiceToken
           (Sample.withCookie "lang=fi; theme=dark") "lang=fi; theme=dark").
  - intros t Ht. discriminate Ht.
  - reflexivity.
  - apply token_not_in. reflexivity.
Defined.

(** A known token followed by another cookie: the decoder is handed
    both and refuses. *)
Lemma X5_witness_cookie_not_cut_at_semicolon :
  Authorize.loadToken Sample.stringToServiceToken
    (Sample.withCookie "token=5.1; lang=fi")
  = Authorize.Responded
      (Res.Json (VNum 500) (ServiceResponse.Build None "jwt malformed")).
Proof.
  rewrite (loadToken_decodes_the_rest_of_the_cookie
             Sample.stringToServiceToken
             (Sample.withCookie "token=5.1; lang=fi") "5.1; lang=fi").
  - reflexivity.
  - intros t Ht. discriminate Ht.
  - reflexivity.
  - apply token_not_in. reflexivity.
Defined.

(** The codec has no signing key: 500 with its message. *)
Lemma X6_witness_keyless_codec :
  fst (AuthController.authenticate Scenario.keyless Sample.askSeven)
  = inr (Res.Json (VNum 500)
           (ServiceResponse.Build None
              "secretOrPrivateKey must have a value")).
Proof.
  apply (proj2 (authenticate_always_answers Scenario.keyless
                  Sample.askSeven)).
  repeat split.
  exists (Error "secretOrPrivateKey must have a value"). now split.
Defined.

(** The request for level 7: the cookie holds the token for level 7. *)
Lemma X7_witness_cookie_for_level_7 :
  AuthenticationService.createToken Sample.authService (VNum 5) (VNum 7)
  = inr "5.7"
  /\ Scenario.hostname (VStr "https://calendar.example")
     = inr "calendar.example".
Proof.
  destruct (vanillaAuthenticate_redirect_carries_the_minted_token
              Sample.authService Scenario.hostname Sample.askSeven
              {| Res.cookie_name := "token";
                 Res.cookie_value := "5.7";
                 Res.maxAge := 604800000;
                 Res.domain := "calendar.example";
                 Res.secure := true |}
              [("Access-Control-Allow-Origin", "*");
               ("Access-Control-Allow-Credentials", "true")]
              (VStr "https://calendar.example")
              eq_refl) as [H1 [H2 _]].
  split; [exact H1 | exact H2].
Defined.

(** A relative redirect target: the token is minted, then the URL
    parser throws. *)
Lemma X8_witness_relative_target :
  fst (AuthController.vanillaAuthenticate Sample.authService
         Scenario.hostname Scenario.askSevenRelative)
  = inl (TypeError "Invalid URL").
Proof.
  apply (vanillaAuthenticate_throws_exactly_on_unparsable_target
           Sample.authService Scenario.hostname Scenario.askSevenRelative).
  repeat split. now exists "5.7".
Defined.

(** The stored user logs in for a service with mask 5: id and name
    are listed. *)
Lemma X9_witness_calendar_sees_id_and_name :
  AuthController.requestPermissions Sample.authService Scenario.getUser
    Scenario.login
  = (inr (Res.Render "gdpr"
            {| Res.userId := VNum 1;
               Res.personalInformation :=
                 [{| Res.name := "id"; Res.value := VNum 1 |};
                  {| Res.name := "name"; Res.value := VStr "Test User" |}];
               Res.serviceName := VStr "Calendar";
               Res.redirectTo := VStr "https://calendar.example" |}),
     []).
Proof.
  exact (proj1 (requestPermissions_discloses_by_the_service_mask
                  Sample.authService Scenario.getUser
                  Scenario.login Sample.stored Sample.calendar
                  eq_refl eq_refl eq_refl eq_refl eq_refl eq_refl)).
Defined.

(** A registration that asked for the role yllapitaja. *)
Lemma X12_witness_signup_gets_kayttaja :
  get (snd (Scenario.validateCreate Scenario.signup)) "role"
  = VStr "kayttaja"
  /\ get (snd (Scenario.validateCreate Scenario.signup)) "membership"
     = VStr "ei-jasen"
  /\ get (snd (Scenario.validateCreate Scenario.signup)) "id" = VUndefined.
Proof.
  pose proof (validateCreate_decides_role_and_membership
                Sample.userService Sample.equals Sample.isEmail
                Sample.isLength Sample.toBoolean Sample.noTrim Scenario.KA
                Scenario.signup eq_refl) as H.
  cbv zeta in H. destruct H as [H1 [H2 [_ [H3 _]]]].
  split; [exact H1 | split; [exact H2 | exact H3]].
Defined.

Lemma X13_witness_signup_without_phone :
  Scenario.validateCreate Scenario.signupNoPhone
  = (inl (ServiceError 400 "Missing required information"),
     delete "id" Scenario.signupNoPhone).
Proof.
  apply (validateCreate_missing_information
           Sample.userService Sample.equals Sample.isEmail
           Sample.isLength Sample.toBoolean Sample.noTrim Scenario.KA
           Scenario.signupNoPhone "phone").
  - simpl. tauto.
  - reflexivity.
Defined.

Lemma X14_witness_signup_was_checked :
  exists u, get Scenario.signup "username" = VStr u
            /\ UserService.checkUsernameAvailability Sample.userService
                 (Sample.noTrim u) = inr true.
Proof.
  exact (proj1 (validateCreate_returns_only_after_every_check
                  Sample.userService Sample.equals Sample.isEmail
                  Sample.isLength Sample.toBoolean Sample.noTrim Scenario.KA
                  Scenario.signup eq_refl)).
Defined.

(** What the owner's accepted contact update leaves holds e-mail,
    and e-mail is a self-edit field. *)
Lemma X15_witness_email_is_permitted :
  In "email" ["screenName"; "email"; "residence"; "phone";
              "isHYYMember"; "isTKTL"; "password1"; "password2"]
  \/ "email" = "id".
Proof.
  apply (validateUpdate_leaves_only_permitted_fields
           Sample.userService Sample.JV Sample.YP Sample.equals
           Sample.isEmail Sample.isLength Sample.toBoolean Sample.noTrim
           1 Sample.owner Sample.contact Sample.stored).
  - reflexivity.
  - apply SelfEdit. reflexivity.
  - reflexivity.
  - vm_compute. tauto.
Defined.

(** A Jasenvirkailija renames the stored user. *)
Lemma X16_witness_new_username_was_asked :
  exists u,
    get (snd (Sample.validateUpdate 1 Sample.staff
                [("username", VStr "renamed")])) "username" = VStr u
    /\ UserService.checkUsernameAvailability Sample.userService
         (Sample.noTrim u) = inr true.
Proof.
  pose proof (validateUpdate_returns_only_after_its_checks
                Sample.userService Sample.JV Sample.YP Sample.equals
                Sample.isEmail Sample.isLength Sample.toBoolean
                Sample.noTrim 1 Sample.staff
                [("username", VStr "renamed")] eq_refl) as H.
  cbv zeta in H. destruct H as [H _]. apply H. reflexivity.
Defined.


(** ** Further runs of the further properties *)

(** A password that comes alone passes. *)
Example lone_password_is_not_compared :
  Sample.validateUpdate 1 Sample.owner Scenario.onePassword
  = (inr tt, [("password1", VStr "hunter22"); ("id", VNum 1)]).
Proof. reflexivity. Qed.

Example different_passwords_are_refused :
  fst (Sample.validateUpdate 1 Sample.owner Scenario.twoPasswords)
  = inl (ServiceError 400 "Passwords do not match").
Proof. reflexivity. Qed.

(** An empty name in the allow-list does not permit the empty key. *)
Example empty_name_permits_nothing :
  UserValidator.checkModifyPermission [(EmptyString, VNum 1)] [EmptyString]
  = inl (ServiceError 403 "Forbidden modify action").
Proof. reflexivity. Qed.

Example payment_loses_its_id :
  PaymentDao.save Scenario.insert Scenario.payment
  = (inr [42%Z], [("payer_id", VNum 1); ("amount", VNum 5)]).
Proof. reflexivity. Qed.

Example payment_keeps_the_id_zero :
  PaymentDao.save Scenario.insert Scenario.paymentZero
  = (inr [42%Z], Scenario.paymentZero).
Proof. reflexivity. Qed.

Example bad_credentials_disclose_nothing :
  AuthController.requestPermissions Sample.authService Scenario.getUser
    [("serviceName", VStr "calendar");
     ("redirectTo", VStr "https://calendar.example");
     ("username", VStr "test_user"); ("password", VStr "guess")]
  = (inr (Res.Json (VNum 401)
            (ServiceResponse.Build None "Invalid username or password")),
     []).
Proof. reflexivity. Qed.
